(** * Air-cooler correlations of [ht.air_cooler]

    A shallow embedding of the five public functions of [ht/air_cooler.py]
    ([Ft_aircooler], [air_cooler_noise_GPSA], [air_cooler_noise_Mukherjee],
    [h_Briggs_Young], [h_ESDU_highfin_staggered]) and of the module-level
    coefficient tables they read.

    Python floats are kept abstract behind the interface [PyFloat]: the
    functions are written once against it, and what is proved of them in
    general holds of any arithmetic.  Two readings of the interface follow:
    [Binary64], the primitive IEEE 754 doubles with the C library's
    functions as parameters, where what fails on doubles is exhibited, and
    [RealFloat], the real numbers, where the documented numeric values are
    enclosed and the hypotheses of the general theorems are met at concrete
    inputs (rounding is then left out).

    A call is a computation in [M]: it runs against the store of the
    module's global bindings and ends in a value or in an exception.  The
    functions are embedded twice: with the names they import as parameters,
    for what they compute, and in the namespace of the module
    ([Namespace]), for what they read and write. *)

From Stdlib Require Import ZArith List Bool Lia.
From Stdlib Require Import Reals Lra QArith Qreals.
From Stdlib Require Floats Uint63.
Import ListNotations.


(** ** Outcomes of a Python evaluation *)

(** The exceptions the arithmetic of the module can raise. *)
Inductive exn : Set :=
| ZeroDivisionError
| ValueError
| OverflowError
| IndexError.

Inductive result (A : Type) : Type :=
| Ok (a : A)
| Raise (e : exn).

Arguments Ok {A} a.
Arguments Raise {A} e.

Definition result_map {A B : Type} (f : A -> B) (r : result A) : result B :=
  match r with
  | Ok a => Ok (f a)
  | Raise e => Raise e
  end.

(** ** Evaluation against the module's global bindings

    A call runs against the store of module-level bindings and hands the
    store on; an exception leaves the store as it was when it was raised. *)
Section Monad.
Variable S : Type.

Definition M (A : Type) : Type := S -> result A * S.

Definition ret {A : Type} (a : A) : M A := fun s => (Ok a, s).

Definition bind {A B : Type} (c : M A) (k : A -> M B) : M B :=
  fun s =>
    match c s with
    | (Ok a, s') => k a s'
    | (Raise e, s') => (Raise e, s')
    end.

(** A pure partial operation (an arithmetic primitive, a collaborator). *)
Definition lift {A : Type} (r : result A) : M A := fun s => (r, s).

(** Reading a global name. *)
Definition gets {A : Type} (field : S -> A) : M A :=
  fun s => (Ok (field s), s).

(** Rebinding global names, or mutating the objects they are bound to. *)
Definition sets (update : S -> S) : M unit :=
  fun s => (Ok tt, update s).

(** [for x in xs: acc = body x acc]. *)
Fixpoint for_ {X A : Type} (xs : list X) (body : X -> A -> M A) (acc : A)
  : M A :=
  match xs with
  | [] => ret acc
  | x :: xs' => bind (body x acc) (fun acc' => for_ xs' body acc')
  end.
End Monad.

Arguments ret {S A} a.
Arguments bind {S A B} c k.
Arguments lift {S A} r.
Arguments gets {S A} field.
Arguments sets {S} update.
Arguments for_ {S X A} xs body acc.

Declare Scope py_scope.
Delimit Scope py_scope with py.
Notation "x <- c ;; k" := (bind c (fun x => k))
  (at level 61, c at next level, right associativity) : py_scope.

(** [xs[n]] for a non-negative index. *)
Definition getitem {A : Type} (xs : list A) (n : nat) : result A :=
  match nth_error xs n with
  | Some a => Ok a
  | None => Raise IndexError
  end.

(** [range(n)]. *)
Definition range (n : nat) : list nat := seq 0 n.

(** ** The float interface

    [lit m e] is the float written as the decimal literal [m]e[e];
    [of_int] is the conversion Python applies to an [int] operand of a mixed
    operation.  [fadd], [fsub], [fmul] never raise; [fdiv] is the quotient for
    a non-zero divisor, Python's own zero test being [is_zero].  The [math]
    functions and [**] may raise.  The three laws are what the loops of
    [Ft_aircooler] use of the exactness of small integers; they hold of the
    real numbers ([RealFloat]) and of binary64 ([Binary64]). *)
Class PyFloat (F : Type) : Type := {
  of_int : Z -> F;
  lit : Z -> Z -> F;
  fadd : F -> F -> F;
  fsub : F -> F -> F;
  fmul : F -> F -> F;
  fdiv : F -> F -> F;
  is_zero : F -> bool;
  math_atan : F -> result F;
  math_sin : F -> result F;
  math_log10 : F -> result F;
  float_pow : F -> F -> result F;
  (** The integers up to 8 are floats, and their sums and products are
      exact. *)
  lit_int : forall m : Z, (0 <= m <= 8)%Z -> lit m 0 = of_int m;
  of_int_add : forall a b : Z, (0 <= a <= 8)%Z -> (0 <= b <= 8)%Z ->
    fadd (of_int a) (of_int b) = of_int (a + b);
  of_int_mul : forall a b : Z, (0 <= a <= 8)%Z -> (0 <= b <= 8)%Z ->
    fmul (of_int a) (of_int b) = of_int (a * b)
}.

Declare Scope pyfloat_scope.
Delimit Scope pyfloat_scope with fl.
Infix "+" := fadd : pyfloat_scope.
Infix "-" := fsub : pyfloat_scope.
Infix "*" := fmul : pyfloat_scope.

(** [x / y]: true division, [ZeroDivisionError] on a zero divisor. *)
Definition truediv {F : Type} `{PyFloat F} (x y : F) : result F :=
  if is_zero y then Raise ZeroDivisionError else Ok (fdiv x y).

Section AirCooler.
Context {F : Type} `{PyFloat F}.

(** The module's remaining bindings ([fin_densities_inch], [fin_densities],
    [ODs], [fin_heights], [tube_orientations], [_fan_diameters],
    [fan_ring_types], [fin_constructions], [headers], [configurations]):
    catalogue data that no function of the module mentions. *)
Variable Catalogue : Type.

Local Open Scope pyfloat_scope.
Local Open Scope py_scope.

(** *** Coefficient tables (Roetzel and Nicole, 1975) *)

Definition _crossflow_1_row_1_pass_init : list (list F) :=
  [ [lit (-462) (-3); lit (-313) (-4); lit (-174) (-3); lit (-42) (-3)];
    [lit 508 (-2); lit 529 (-3); lit 132 (-2); lit 347 (-3)];
    [lit (-157) (-1); lit (-237) (-2); lit (-293) (-2); lit (-853) (-3)];
    [lit 172 (-1); lit 318 (-2); lit 199 (-2); lit 649 (-3)] ].

Definition _crossflow_2_rows_1_pass_init : list (list F) :=
  [ [lit (-334) (-3); lit (-154) (-3); lit (-865) (-4); lit 553 (-4)];
    [lit 33 (-1); lit 128 (-2); lit 546 (-3); lit (-405) (-3)];
    [lit (-87) (-1); lit (-335) (-2); lit (-929) (-3); lit 953 (-3)];
    [lit 87 (-1); lit 283 (-2); lit 471 (-3); lit (-717) (-3)] ].

Definition _crossflow_3_rows_1_pass_init : list (list F) :=
  [ [lit (-874) (-4); lit (-318) (-4); lit (-183) (-4); lit 71 (-4)];
    [lit 105 (-2); lit 274 (-3); lit 123 (-3); lit (-499) (-4)];
    [lit (-245) (-2); lit (-746) (-3); lit (-156) (-3); lit 109 (-3)];
    [lit 321 (-2); lit 668 (-3); lit 617 (-4); lit (-746) (-4)] ].

Definition _crossflow_4_rows_1_pass_init : list (list F) :=
  [ [lit (-414) (-4); lit (-139) (-4); lit (-723) (-5); lit 61 (-4)];
    [lit 615 (-3); lit 123 (-3); lit 566 (-4); lit (-468) (-4)];
    [lit (-12) (-1); lit (-345) (-3); lit (-437) (-4); lit 107 (-3)];
    [lit 206 (-2); lit 318 (-3); lit 111 (-4); lit (-757) (-4)] ].

Definition _crossflow_2_rows_2_pass_init : list (list F) :=
  [ [lit (-235) (-3); lit (-773) (-4); lit (-598) (-4); lit 525 (-5)];
    [lit 228 (-2); lit 632 (-3); lit 364 (-3); lit (-127) (-4)];
    [lit (-644) (-2); lit (-163) (-2); lit (-613) (-3); lit (-114) (-4)];
    [lit 624 (-2); lit 135 (-2); lit 276 (-3); lit 272 (-4)] ].

Definition _crossflow_3_rows_3_pass_init : list (list F) :=
  [ [lit (-843) (-3); lit 302 (-4); lit 48 (-2); lit 812 (-4)];
    [lit 585 (-2); lit (-964) (-5); lit (-328) (-2); lit (-834) (-3)];
    [lit (-128) (-1); lit (-228) (-3); lit 711 (-2); lit 219 (-2)];
    [lit 924 (-2); lit 266 (-3); lit (-49) (-1); lit (-169) (-2)] ].

Definition _crossflow_4_rows_4_pass_init : list (list F) :=
  [ [lit (-339) (-3); lit 277 (-4); lit 179 (-3); lit (-199) (-4)];
    [lit 238 (-2); lit (-999) (-4); lit (-121) (-2); lit 4 (-2)];
    [lit (-526) (-2); lit 904 (-4); lit 262 (-2); lit 494 (-4)];
    [lit 39 (-1); lit (-845) (-6); lit (-181) (-2); lit (-981) (-4)] ].

Definition _crossflow_4_rows_2_pass_init : list (list F) :=
  [ [lit (-605) (-3); lit 231 (-4); lit 294 (-3); lit 198 (-4)];
    [lit 434 (-2); lit 59 (-4); lit (-199) (-2); lit (-305) (-3)];
    [lit (-972) (-2); lit (-248) (-3); lit 432 (-2); lit 897 (-3)];
    [lit 754 (-2); lit 287 (-3); lit (-3) 0; lit (-731) (-3)] ].


(** *** The module's global bindings *)

Record Globals : Type := {
  catalogue : Catalogue;
  _crossflow_1_row_1_pass : list (list F);
  _crossflow_2_rows_1_pass : list (list F);
  _crossflow_3_rows_1_pass : list (list F);
  _crossflow_4_rows_1_pass : list (list F);
  _crossflow_2_rows_2_pass : list (list F);
  _crossflow_3_rows_3_pass : list (list F);
  _crossflow_4_rows_4_pass : list (list F);
  _crossflow_4_rows_2_pass : list (list F)
}.

(** The store once the module has been imported. *)
Definition module_globals (c : Catalogue) : Globals := {|
  catalogue := c;
  _crossflow_1_row_1_pass := _crossflow_1_row_1_pass_init;
  _crossflow_2_rows_1_pass := _crossflow_2_rows_1_pass_init;
  _crossflow_3_rows_1_pass := _crossflow_3_rows_1_pass_init;
  _crossflow_4_rows_1_pass := _crossflow_4_rows_1_pass_init;
  _crossflow_2_rows_2_pass := _crossflow_2_rows_2_pass_init;
  _crossflow_3_rows_3_pass := _crossflow_3_rows_3_pass_init;
  _crossflow_4_rows_4_pass := _crossflow_4_rows_4_pass_init;
  _crossflow_4_rows_2_pass := _crossflow_4_rows_2_pass_init
|}.

(** *** External collaborators

    [LMTD] and [fin_efficiency_Kern_Kraus] come from [ht.core], [Reynolds]
    and [Prandtl] from [fluids], [hp] and [minute] from [scipy.constants].
    They are pure functions of their arguments; arguments are in the order
    [LMTD Thi Tho Tci Tco], [Reynolds V D rho mu], [Prandtl Cp mu k],
    [fin_efficiency_Kern_Kraus Do D_fin t_fin k_fin h]. *)
Variable LMTD : F -> F -> F -> F -> result F.
Variable Reynolds : F -> F -> F -> F -> result F.
Variable Prandtl : F -> F -> F -> result F.
Variable fin_efficiency_Kern_Kraus : F -> F -> F -> F -> F -> result F.
Variable hp : F.
Variable minute : F.

(** *** [Ft_aircooler] *)

(** The [if]/[elif] chain of lines 170-194. *)
Definition select_coefs (Ntp rows : Z) : M Globals (list (list F)) :=
  if ((Ntp =? 1) && (rows =? 1))%Z then gets _crossflow_1_row_1_pass
  else if ((Ntp =? 1) && (rows =? 2))%Z then gets _crossflow_2_rows_1_pass
  else if ((Ntp =? 1) && (rows =? 3))%Z then gets _crossflow_3_rows_1_pass
  else if ((Ntp =? 1) && (rows =? 4))%Z then gets _crossflow_4_rows_1_pass
  else if ((Ntp =? 1) && (rows >? 4))%Z then gets _crossflow_4_rows_1_pass
  else if ((Ntp =? 2) && (rows =? 2))%Z then gets _crossflow_2_rows_2_pass
  else if ((Ntp =? 3) && (rows =? 3))%Z then gets _crossflow_3_rows_3_pass
  else if ((Ntp =? 4) && (rows =? 4))%Z then gets _crossflow_4_rows_4_pass
  else if ((Ntp >? 4) && (rows >? 4) && (Ntp =? rows))%Z
    then gets _crossflow_4_rows_4_pass
  else if ((Ntp =? 2) && (rows =? 4))%Z then gets _crossflow_4_rows_2_pass
  else gets _crossflow_4_rows_2_pass.

(** Lines 165-202.  [tot] starts as the integer 0, which the first [+=]
    converts to a float; [k + 1.] and [2.*(i + 1.)] convert the loop indices
    likewise. *)
Definition Ft_aircooler (Thi Tho Tci Tco : F) (Ntp rows : Z) : M Globals F :=
  dTlm <- lift (LMTD Thi Tho Tci Tco) ;;
  rlm <- lift (truediv dTlm (Thi - Tci)) ;;
  R <- lift (truediv (Thi - Tho) (Tco - Tci)) ;;
  coefs <- select_coefs Ntp rows ;;
  let tot := of_int 0 in
  atanR <- lift (math_atan R) ;;
  let cmps := range (length coefs) in
  tot <- for_ cmps (fun k tot =>
    x0 <- lift (float_pow (lit 1 0 - rlm) (of_int (Z.of_nat k) + lit 1 0)) ;;
    for_ cmps (fun i tot =>
      row <- lift (getitem coefs k) ;;
      c <- lift (getitem row i) ;;
      s <- lift (math_sin
                   (lit 2 0 * (of_int (Z.of_nat i) + lit 1 0) * atanR)) ;;
      ret (tot + c * x0 * s)) tot) tot ;;
  ret (lit 1 0 - tot).

(** A call site: [Ntp] and [rows] may be omitted and then default to 1
    (line 100). *)
Definition Ft_aircooler_call (Thi Tho Tci Tco : F) (Ntp rows : option Z)
  : M Globals F :=
  Ft_aircooler Thi Tho Tci Tco
    (match Ntp with Some n => n | None => 1%Z end)
    (match rows with Some n => n | None => 1%Z end).

(** *** Fan noise *)

(** Lines 241-243.  The divisor 304.8 is a non-zero literal, so that division
    cannot raise; [hp] is a name and is tested. *)
Definition air_cooler_noise_GPSA (tip_speed power : F) : M Globals F :=
  let tip_speed := tip_speed * minute in
  power <- lift (truediv power hp) ;;
  l1 <- lift (math_log10 (fdiv tip_speed (lit 3048 (-1)))) ;;
  l2 <- lift (math_log10 power) ;;
  ret (lit 56 0 + lit 30 0 * l1 + lit 10 0 * l2).

(** Lines 287-290. *)
Definition air_cooler_noise_Mukherjee (tip_speed power fan_diameter : F)
  (induced : bool) : M Globals F :=
  l1 <- lift (math_log10 tip_speed) ;;
  power_hp <- lift (truediv power hp) ;;
  l2 <- lift (math_log10 power_hp) ;;
  l3 <- lift (math_log10 fan_diameter) ;;
  let noise := lit 46 0 + lit 30 0 * l1 + lit 10 0 * l2 - lit 20 0 * l3 in
  let noise := if induced then noise - lit 3 0 else noise in
  ret noise.

(** *** Finned-tube heat transfer coefficients *)

(** Lines 382-397.  In [1/3.] the divisor is a non-zero literal. *)
Definition h_Briggs_Young
  (m A A_min A_increase A_fin A_tube_showing tube_diameter fin_diameter
   fin_thickness bare_length rho Cp mu k k_fin : F) : M Globals F :=
  let fin_height := lit 5 (-1) * (fin_diameter - tube_diameter) in
  V_max <- lift (truediv m (A_min * rho)) ;;
  Re <- lift (Reynolds V_max tube_diameter rho mu) ;;
  Pr <- lift (Prandtl Cp mu k) ;;
  p1 <- lift (float_pow Re (lit 681 (-3))) ;;
  p2 <- lift (float_pow Pr (fdiv (of_int 1) (lit 3 0))) ;;
  q3 <- lift (truediv bare_length fin_height) ;;
  p3 <- lift (float_pow q3 (lit 2 (-1))) ;;
  q4 <- lift (truediv bare_length fin_thickness) ;;
  p4 <- lift (float_pow q4 (lit 1134 (-4))) ;;
  let Nu := lit 134 (-3) * p1 * p2 * p3 * p4 in
  q <- lift (truediv k tube_diameter) ;;
  let h := q * Nu in
  efficiency <- lift (fin_efficiency_Kern_Kraus tube_diameter fin_diameter
                        fin_thickness k_fin h) ;;
  q' <- lift (truediv (efficiency * A_fin + A_tube_showing) A) ;;
  let h_total_area_basis := q' * h in
  let h_bare_tube_basis := h_total_area_basis * A_increase in
  ret h_bare_tube_basis.

(** Lines 485-496. *)
Definition h_ESDU_highfin_staggered
  (m A A_min A_increase A_fin A_tube_showing tube_diameter fin_diameter
   fin_thickness bare_length pitch_parallel pitch_normal rho Cp mu k k_fin : F)
  : M Globals F :=
  let fin_height := lit 5 (-1) * (fin_diameter - tube_diameter) in
  V_max <- lift (truediv m (A_min * rho)) ;;
  Re <- lift (Reynolds V_max tube_diameter rho mu) ;;
  Pr <- lift (Prandtl Cp mu k) ;;
  p1 <- lift (float_pow Re (lit 658 (-3))) ;;
  q2 <- lift (truediv bare_length fin_height) ;;
  p2 <- lift (float_pow q2 (lit 297 (-3))) ;;
  q3 <- lift (truediv pitch_normal pitch_parallel) ;;
  p3 <- lift (float_pow q3 (lit (-91) (-3))) ;;
  p4 <- lift (float_pow Pr (fdiv (of_int 1) (lit 3 0))) ;;
  let Nu := lit 242 (-3) * p1 * p2 * p3 * p4 in
  q <- lift (truediv k tube_diameter) ;;
  let h := q * Nu in
  efficiency <- lift (fin_efficiency_Kern_Kraus tube_diameter fin_diameter
                        fin_thickness k_fin h) ;;
  q' <- lift (truediv (efficiency * A_fin + A_tube_showing) A) ;;
  let h_total_area_basis := q' * h in
  let h_bare_tube_basis := h_total_area_basis * A_increase in
  ret h_bare_tube_basis.

End AirCooler.

Arguments Globals F Catalogue : clear implicits.
Arguments catalogue {F Catalogue} g.
Arguments _crossflow_1_row_1_pass {F Catalogue} g.
Arguments _crossflow_2_rows_1_pass {F Catalogue} g.
Arguments _crossflow_3_rows_1_pass {F Catalogue} g.
Arguments _crossflow_4_rows_1_pass {F Catalogue} g.
Arguments _crossflow_2_rows_2_pass {F Catalogue} g.
Arguments _crossflow_3_rows_3_pass {F Catalogue} g.
Arguments _crossflow_4_rows_4_pass {F Catalogue} g.
Arguments _crossflow_4_rows_2_pass {F Catalogue} g.
Arguments module_globals {F H Catalogue} c.
Arguments select_coefs {F Catalogue} Ntp rows.
Arguments Ft_aircooler {F H Catalogue} LMTD Thi Tho Tci Tco Ntp rows.
Arguments Ft_aircooler_call {F H Catalogue} LMTD Thi Tho Tci Tco Ntp rows.
Arguments air_cooler_noise_GPSA {F H Catalogue} hp minute tip_speed power.
Arguments air_cooler_noise_Mukherjee {F H Catalogue} hp tip_speed power
  fan_diameter induced.
Arguments h_Briggs_Young {F H Catalogue} Reynolds Prandtl
  fin_efficiency_Kern_Kraus m A A_min A_increase A_fin A_tube_showing
  tube_diameter fin_diameter fin_thickness bare_length rho Cp mu k k_fin.
Arguments h_ESDU_highfin_staggered {F H Catalogue} Reynolds Prandtl
  fin_efficiency_Kern_Kraus m A A_min A_increase A_fin A_tube_showing
  tube_diameter fin_diameter fin_thickness bare_length pitch_parallel
  pitch_normal rho Cp mu k k_fin.

(** ** The vocabulary of the specification *)

(** The eight tabulated configurations, by tube rows and tube passes. *)
Inductive table_id : Set :=
| Rows1_Pass1
| Rows2_Pass1
| Rows3_Pass1
| Rows4_Pass1
| Rows2_Pass2
| Rows3_Pass3
| Rows4_Pass4
| Rows4_Pass2.

Section Specification.
Context {F : Type} `{PyFloat F}.
Variable Catalogue : Type.

Local Open Scope pyfloat_scope.

(** The global a configuration is bound to. *)
Definition table_of (t : table_id) : Globals F Catalogue -> list (list F) :=
  match t with
  | Rows1_Pass1 => _crossflow_1_row_1_pass
  | Rows2_Pass1 => _crossflow_2_rows_1_pass
  | Rows3_Pass1 => _crossflow_3_rows_1_pass
  | Rows4_Pass1 => _crossflow_4_rows_1_pass
  | Rows2_Pass2 => _crossflow_2_rows_2_pass
  | Rows3_Pass3 => _crossflow_3_rows_3_pass
  | Rows4_Pass4 => _crossflow_4_rows_4_pass
  | Rows4_Pass2 => _crossflow_4_rows_2_pass
  end.

(** The pairs [(Ntp, rows)] that have a table of their own. *)
Definition tabulated (Ntp rows : Z) : Prop :=
  In (Ntp, rows)
     [(1, 1); (1, 2); (1, 3); (1, 4); (2, 2); (3, 3); (4, 4); (2, 4)]%Z.

(** The selection rules as the specification words them: eight exact
    entries and three fallbacks. *)
Inductive spec_table : Z -> Z -> table_id -> Prop :=
| exact_1_1 : spec_table 1 1 Rows1_Pass1
| exact_1_2 : spec_table 1 2 Rows2_Pass1
| exact_1_3 : spec_table 1 3 Rows3_Pass1
| exact_1_4 : spec_table 1 4 Rows4_Pass1
| exact_2_2 : spec_table 2 2 Rows2_Pass2
| exact_3_3 : spec_table 3 3 Rows3_Pass3
| exact_4_4 : spec_table 4 4 Rows4_Pass4
| exact_2_4 : spec_table 2 4 Rows4_Pass2
| fallback_one_pass (rows : Z) :
    (rows > 4)%Z -> spec_table 1 rows Rows4_Pass1
| fallback_square (Ntp rows : Z) :
    (Ntp > 4)%Z -> (rows > 4)%Z -> Ntp = rows -> spec_table Ntp rows Rows4_Pass4
| fallback_default (Ntp rows : Z) :
    ~ tabulated Ntp rows ->
    ~ (Ntp = 1%Z /\ (rows > 4)%Z) ->
    ~ ((Ntp > 4)%Z /\ (rows > 4)%Z /\ Ntp = rows) ->
    spec_table Ntp rows Rows4_Pass2.

(** [coefs[k][i]] of a table known to hold it. *)
Definition entry (coefs : list (list F)) (k i : nat) : F :=
  nth i (nth k coefs []) (of_int 0).

(** A table with [n] rows of [m] entries. *)
Definition shape (n m : nat) (coefs : list (list F)) : Prop :=
  length coefs = n /\ Forall (fun row => length row = m) coefs.

(** The double sum of [t k i] over [k = 0 .. n-1] (outer) and
    [i = 0 .. m-1] (inner), accumulated from 0 one term at a time with the
    inner index running fastest. *)
Definition double_sum (n m : nat) (t : nat -> nat -> F) : F :=
  fold_left
    (fun acc k => fold_left (fun acc' i => acc' + t k i) (seq 0 m) acc)
    (seq 0 n) (of_int 0).

(** Two stores that bind the coefficient tables alike. *)
Definition same_tables (g g' : Globals F Catalogue) : Prop :=
  forall t : table_id, table_of t g = table_of t g'.

(** What makes a call pure: it hands the store on as it found it, its outcome
    is the same from any two stores that are the [same] in what the call may
    read, and calling it twice in a row gives the same outcome twice. *)
Definition leaves_store {A : Type} (c : M (Globals F Catalogue) A) : Prop :=
  forall g, snd (c g) = g.

Definition reads_only (same : Globals F Catalogue -> Globals F Catalogue -> Prop)
  {A : Type} (c : M (Globals F Catalogue) A) : Prop :=
  forall g g', same g g' -> fst (c g) = fst (c g').

Definition repeatable {A : Type} (c : M (Globals F Catalogue) A) : Prop :=
  forall g, fst (c (snd (c g))) = fst (c g).

Definition pure_call (same : Globals F Catalogue -> Globals F Catalogue -> Prop)
  {A : Type} (c : M (Globals F Catalogue) A) : Prop :=
  leaves_store c /\ reads_only same c /\ repeatable c.

(** The two facts that compose along [bind] and [for_]: no write, and no read
    past [same]. *)
Definition frame (same : Globals F Catalogue -> Globals F Catalogue -> Prop)
  {A : Type} (c : M (Globals F Catalogue) A) : Prop :=
  leaves_store c /\ reads_only same c.

(** The store with the 1-row-1-pass table emptied in place. *)
Definition clear_one_row (g : Globals F Catalogue) : Globals F Catalogue := {|
  catalogue := catalogue g;
  _crossflow_1_row_1_pass := [];
  _crossflow_2_rows_1_pass := _crossflow_2_rows_1_pass g;
  _crossflow_3_rows_1_pass := _crossflow_3_rows_1_pass g;
  _crossflow_4_rows_1_pass := _crossflow_4_rows_1_pass g;
  _crossflow_2_rows_2_pass := _crossflow_2_rows_2_pass g;
  _crossflow_3_rows_3_pass := _crossflow_3_rows_3_pass g;
  _crossflow_4_rows_4_pass := _crossflow_4_rows_4_pass g;
  _crossflow_4_rows_2_pass := _crossflow_4_rows_2_pass g
|}.

(** The part of [Ft_aircooler] that follows the selection (lines 195-202). *)
Definition series_of (coefs : list (list F)) (rlm R : F)
  : M (Globals F Catalogue) F :=
  bind (lift (math_atan R)) (fun atanR =>
  bind (for_ (range (length coefs)) (fun k tot =>
          bind (lift (float_pow (lit 1 0 - rlm)
                        (of_int (Z.of_nat k) + lit 1 0))) (fun x0 =>
          for_ (range (length coefs)) (fun i tot =>
            bind (lift (getitem coefs k)) (fun row =>
            bind (lift (getitem row i)) (fun c =>
            bind (lift (math_sin
                    (lit 2 0 * (of_int (Z.of_nat i) + lit 1 0) * atanR)))
              (fun s => ret (tot + c * x0 * s))))) tot)) (of_int 0))
    (fun tot => ret (lit 1 0 - tot))).

(** A computation that neither writes nor reads the store. *)
Definition blind {A : Type} (c : M (Globals F Catalogue) A) : Prop :=
  (forall g, snd (c g) = g) /\ (forall g g', fst (c g) = fst (c g')).

End Specification.

Arguments table_of {F Catalogue} t.
Arguments entry {F H} coefs k i.
Arguments shape {F} n m coefs.
Arguments double_sum {F H} n m t.
Arguments same_tables {F Catalogue} g g'.
Arguments leaves_store {F Catalogue A} c.
Arguments reads_only {F Catalogue} same {A} c.
Arguments repeatable {F Catalogue A} c.
Arguments pure_call {F Catalogue} same {A} c.
Arguments frame {F Catalogue} same {A} c.
Arguments clear_one_row {F Catalogue} g.
Arguments series_of {F H} Catalogue coefs rlm R.
Arguments blind {F Catalogue A} c.

(** ** The calls in the namespace of the module

    The embedding above takes the names that the function bodies use without
    defining them as parameters: [hp] and [minute] as floats, and [LMTD],
    [Reynolds], [Prandtl] and [fin_efficiency_Kern_Kraus] as functions of
    their arguments.  Python looks a global name up when the line that names
    it runs, and a callee may read and write what it can reach.  For what a
    call reads and writes, here are the five bodies again, line for line,
    with [hp] and [minute] read from the store and the callees as procedures
    on the store.  With callees that are functions of their arguments these
    are the bodies above ([Namespace_agrees]). *)

(** What [from scipy.constants import minute, hp] binds, beside the catalogue
    data. *)
Record Imports (F Catalogue : Type) : Type := {
  imported_hp : F;
  imported_minute : F;
  catalogue_data : Catalogue
}.

Arguments imported_hp {F Catalogue} i.
Arguments imported_minute {F Catalogue} i.
Arguments catalogue_data {F Catalogue} i.

Module Namespace.
Section Bodies.
Context {F : Type} `{PyFloat F}.
Variable Catalogue : Type.
Variable LMTD : F -> F -> F -> F -> M (Globals F (Imports F Catalogue)) F.
Variable Reynolds : F -> F -> F -> F -> M (Globals F (Imports F Catalogue)) F.
Variable Prandtl : F -> F -> F -> M (Globals F (Imports F Catalogue)) F.
Variable fin_efficiency_Kern_Kraus :
  F -> F -> F -> F -> F -> M (Globals F (Imports F Catalogue)) F.

Local Open Scope pyfloat_scope.
Local Open Scope py_scope.

(** The global names [hp] and [minute]. *)
Definition hp : M (Globals F (Imports F Catalogue)) F :=
  gets (fun g => imported_hp (catalogue g)).

Definition minute : M (Globals F (Imports F Catalogue)) F :=
  gets (fun g => imported_minute (catalogue g)).

(** Lines 165-202: [LMTD] is called first, then the table is looked up and
    the series evaluated over it. *)
Definition Ft_aircooler (Thi Tho Tci Tco : F) (Ntp rows : Z)
  : M (Globals F (Imports F Catalogue)) F :=
  dTlm <- LMTD Thi Tho Tci Tco ;;
  rlm <- lift (truediv dTlm (Thi - Tci)) ;;
  R <- lift (truediv (Thi - Tho) (Tco - Tci)) ;;
  coefs <- select_coefs Ntp rows ;;
  series_of (Imports F Catalogue) coefs rlm R.

(** Lines 241-243. *)
Definition air_cooler_noise_GPSA (tip_speed power : F)
  : M (Globals F (Imports F Catalogue)) F :=
  minute_ <- minute ;;
  let tip_speed := tip_speed * minute_ in
  hp_ <- hp ;;
  power <- lift (truediv power hp_) ;;
  l1 <- lift (math_log10 (fdiv tip_speed (lit 3048 (-1)))) ;;
  l2 <- lift (math_log10 power) ;;
  ret (lit 56 0 + lit 30 0 * l1 + lit 10 0 * l2).

(** Lines 287-290. *)
Definition air_cooler_noise_Mukherjee (tip_speed power fan_diameter : F)
  (induced : bool) : M (Globals F (Imports F Catalogue)) F :=
  l1 <- lift (math_log10 tip_speed) ;;
  hp_ <- hp ;;
  power_hp <- lift (truediv power hp_) ;;
  l2 <- lift (math_log10 power_hp) ;;
  l3 <- lift (math_log10 fan_diameter) ;;
  let noise := lit 46 0 + lit 30 0 * l1 + lit 10 0 * l2 - lit 20 0 * l3 in
  let noise := if induced then noise - lit 3 0 else noise in
  ret noise.

(** Lines 382-397. *)
Definition h_Briggs_Young
  (m A A_min A_increase A_fin A_tube_showing tube_diameter fin_diameter
   fin_thickness bare_length rho Cp mu k k_fin : F)
  : M (Globals F (Imports F Catalogue)) F :=
  let fin_height := lit 5 (-1) * (fin_diameter - tube_diameter) in
  V_max <- lift (truediv m (A_min * rho)) ;;
  Re <- Reynolds V_max tube_diameter rho mu ;;
  Pr <- Prandtl Cp mu k ;;
  p1 <- lift (float_pow Re (lit 681 (-3))) ;;
  p2 <- lift (float_pow Pr (fdiv (of_int 1) (lit 3 0))) ;;
  q3 <- lift (truediv bare_length fin_height) ;;
  p3 <- lift (float_pow q3 (lit 2 (-1))) ;;
  q4 <- lift (truediv bare_length fin_thickness) ;;
  p4 <- lift (float_pow q4 (lit 1134 (-4))) ;;
  let Nu := lit 134 (-3) * p1 * p2 * p3 * p4 in
  q <- lift (truediv k tube_diameter) ;;
  let h := q * Nu in
  efficiency <- fin_efficiency_Kern_Kraus tube_diameter fin_diameter
                  fin_thickness k_fin h ;;
  q' <- lift (truediv (efficiency * A_fin + A_tube_showing) A) ;;
  let h_total_area_basis := q' * h in
  let h_bare_tube_basis := h_total_area_basis * A_increase in
  ret h_bare_tube_basis.

(** Lines 485-496. *)
Definition h_ESDU_highfin_staggered
  (m A A_min A_increase A_fin A_tube_showing tube_diameter fin_diameter
   fin_thickness bare_length pitch_parallel pitch_normal rho Cp mu k k_fin : F)
  : M (Globals F (Imports F Catalogue)) F :=
  let fin_height := lit 5 (-1) * (fin_diameter - tube_diameter) in
  V_max <- lift (truediv m (A_min * rho)) ;;
  Re <- Reynolds V_max tube_diameter rho mu ;;
  Pr <- Prandtl Cp mu k ;;
  p1 <- lift (float_pow Re (lit 658 (-3))) ;;
  q2 <- lift (truediv bare_length fin_height) ;;
  p2 <- lift (float_pow q2 (lit 297 (-3))) ;;
  q3 <- lift (truediv pitch_normal pitch_parallel) ;;
  p3 <- lift (float_pow q3 (lit (-91) (-3))) ;;
  p4 <- lift (float_pow Pr (fdiv (of_int 1) (lit 3 0))) ;;
  let Nu := lit 242 (-3) * p1 * p2 * p3 * p4 in
  q <- lift (truediv k tube_diameter) ;;
  let h := q * Nu in
  efficiency <- fin_efficiency_Kern_Kraus tube_diameter fin_diameter
                  fin_thickness k_fin h ;;
  q' <- lift (truediv (efficiency * A_fin + A_tube_showing) A) ;;
  let h_total_area_basis := q' * h in
  let h_bare_tube_basis := h_total_area_basis * A_increase in
  ret h_bare_tube_basis.

(** Two stores that bind [hp] and [minute] alike. *)
Definition same_constants (g g' : Globals F (Imports F Catalogue)) : Prop :=
  imported_hp (catalogue g) = imported_hp (catalogue g') /\
  imported_minute (catalogue g) = imported_minute (catalogue g').

(** Two stores that bind [hp] alike. *)
Definition same_hp (g g' : Globals F (Imports F Catalogue)) : Prop :=
  imported_hp (catalogue g) = imported_hp (catalogue g').

(** Any two stores: for a call that reads none. *)
Definition any_store (g g' : Globals F (Imports F Catalogue)) : Prop := True.

(** A callee that is no function of its arguments: it empties the
    1-row-1-pass table in place before it returns [dTlm]. *)
Definition LMTD_clearing (dTlm : F) (Thi Tho Tci Tco : F)
  : M (Globals F (Imports F Catalogue)) F :=
  _ <- sets clear_one_row ;; ret dTlm.

End Bodies.

Arguments hp {F Catalogue}.
Arguments minute {F Catalogue}.
Arguments Ft_aircooler {F H Catalogue} LMTD Thi Tho Tci Tco Ntp rows.
Arguments air_cooler_noise_GPSA {F H Catalogue} tip_speed power.
Arguments air_cooler_noise_Mukherjee {F H Catalogue} tip_speed power
  fan_diameter induced.
Arguments h_Briggs_Young {F H Catalogue} Reynolds Prandtl
  fin_efficiency_Kern_Kraus m A A_min A_increase A_fin A_tube_showing
  tube_diameter fin_diameter fin_thickness bare_length rho Cp mu k k_fin.
Arguments h_ESDU_highfin_staggered {F H Catalogue} Reynolds Prandtl
  fin_efficiency_Kern_Kraus m A A_min A_increase A_fin A_tube_showing
  tube_diameter fin_diameter fin_thickness bare_length pitch_parallel
  pitch_normal rho Cp mu k k_fin.
Arguments same_constants {F Catalogue} g g'.
Arguments same_hp {F Catalogue} g g'.
Arguments any_store {F Catalogue} g g'.
Arguments LMTD_clearing {F Catalogue} dTlm Thi Tho Tci Tco.

End Namespace.

(** ** The real-number reading of the interface *)

(** The interface over the real numbers: no rounding, no underflow and no
    overflow.  It serves for the documented values, which are enclosed at
    one input with a tolerance, and for inputs that meet the hypotheses of
    the theorems; what holds of every float is stated on the interface or on
    binary64. *)

Definition R_is_zero (x : R) : bool :=
  if Req_dec_T x 0 then true else false.

Definition R_lit (m e : Z) : R :=
  match e with
  | Zneg p => (IZR m / IZR (Z.pow_pos 10 p))%R
  | _ => (IZR m * IZR (10 ^ e))%R
  end.

(** The decimal logarithm. *)
Definition log10 (x : R) : R := (ln x / ln 10)%R.

(** [math.log10]: a [ValueError] outside the positive numbers. *)
Definition R_log10 (x : R) : result R :=
  if Rlt_dec 0 x then Ok (log10 x) else Raise ValueError.

(** [math.log]. *)
Definition R_log (x : R) : result R :=
  if Rlt_dec 0 x then Ok (ln x) else Raise ValueError.

(** [x ** y] on floats, read over the reals: [x ** 0] is 1, zero to a
    negative power is a [ZeroDivisionError], a negative base takes integer
    exponents only.  With a fractional exponent the result of Python 3 is a
    complex number and no float: it is reported as [ValueError] here.  There
    is no [OverflowError] over the reals. *)
Definition R_pow (x y : R) : result R :=
  if Req_dec_T y 0 then Ok 1%R
  else if Req_dec_T x 0 then
    if Rlt_dec y 0 then Raise ZeroDivisionError else Ok 0%R
  else if Rlt_dec 0 x then Ok (Rpower x y)
  else if Req_dec_T y (IZR (Int_part y)) then Ok (powerRZ x (Int_part y))
  else Raise ValueError.

Lemma R_lit_int (m : Z) : (0 <= m <= 8)%Z -> R_lit m 0 = IZR m.
Proof. intros _. unfold R_lit. simpl. ring. Qed.

Lemma R_of_int_add (a b : Z) :
  (0 <= a <= 8)%Z -> (0 <= b <= 8)%Z -> (IZR a + IZR b)%R = IZR (a + b).
Proof. intros _ _. symmetry. apply plus_IZR. Qed.

Lemma R_of_int_mul (a b : Z) :
  (0 <= a <= 8)%Z -> (0 <= b <= 8)%Z -> (IZR a * IZR b)%R = IZR (a * b).
Proof. intros _ _. symmetry. apply mult_IZR. Qed.

#[export] Instance RealFloat : PyFloat R := {|
  of_int := IZR;
  lit := R_lit;
  fadd := Rplus;
  fsub := Rminus;
  fmul := Rmult;
  fdiv := Rdiv;
  is_zero := R_is_zero;
  math_atan := fun x => Ok (atan x);
  math_sin := fun x => Ok (sin x);
  math_log10 := R_log10;
  float_pow := R_pow;
  lit_int := R_lit_int;
  of_int_add := R_of_int_add;
  of_int_mul := R_of_int_mul
|}.

(** Modelled from the spec: [LMTD] is defined in [ht.core], which is not among
    the sources.  The specification calls it the log-mean temperature
    difference assuming counterflow: the logarithmic mean of the terminal
    differences [Thi - Tco] and [Tho - Tci]. *)
Definition LMTD_R (Thi Tho Tci Tco : R) : result R :=
  let dTF1 := (Thi - Tco)%R in
  let dTF2 := (Tho - Tci)%R in
  match truediv dTF2 dTF1 with
  | Raise e => Raise e
  | Ok q =>
    match R_log q with
    | Raise e => Raise e
    | Ok l => truediv (dTF2 - dTF1)%R l
    end
  end.

(** [scipy.constants.minute] and [scipy.constants.hp] (550 foot-pounds-force
    per second, in watts). *)
Definition minute_R : R := 60%R.

Definition hp_R : R := (550 * 0.3048 * 0.45359237 * 9.80665)%R.

(** The dimensionless groups of [fluids] on the reals. *)
Definition Reynolds_R (V D rho mu : R) : result R :=
  match truediv mu rho with
  | Raise e => Raise e
  | Ok nu => truediv (V * D)%R nu
  end.

Definition Prandtl_R (Cp mu k : R) : result R :=
  truediv (Cp * mu)%R k.

(** A fin of efficiency 1, to exhibit inputs on which the arithmetic of the
    finned-tube correlations is defined. *)
Definition ideal_fin (Do D_fin t_fin k_fin h : R) : result R := Ok 1%R.

(** The imported store, its one-row table emptied afterwards. *)
Definition emptied_one_row : Globals R unit := {|
  catalogue := tt;
  _crossflow_1_row_1_pass := nil;
  _crossflow_2_rows_1_pass := _crossflow_2_rows_1_pass_init;
  _crossflow_3_rows_1_pass := _crossflow_3_rows_1_pass_init;
  _crossflow_4_rows_1_pass := _crossflow_4_rows_1_pass_init;
  _crossflow_2_rows_2_pass := _crossflow_2_rows_2_pass_init;
  _crossflow_3_rows_3_pass := _crossflow_3_rows_3_pass_init;
  _crossflow_4_rows_4_pass := _crossflow_4_rows_4_pass_init;
  _crossflow_4_rows_2_pass := _crossflow_4_rows_2_pass_init
|}.

(** ** The binary64 reading of the interface

    Python's [float] is IEEE 754 binary64, as the primitive floats are.  The
    [math] functions and [**] belong to the platform's C library and stay
    parameters. *)

Record Libm : Type := {
  libm_atan : PrimFloat.float -> result PrimFloat.float;
  libm_sin : PrimFloat.float -> result PrimFloat.float;
  libm_log10 : PrimFloat.float -> result PrimFloat.float;
  libm_pow : PrimFloat.float -> PrimFloat.float -> result PrimFloat.float
}.

(** [float(z)], for [z] within 63 bits. *)
Definition b64_of_int (z : Z) : PrimFloat.float :=
  if (z <? 0)%Z then PrimFloat.opp (PrimFloat.of_uint63 (Uint63.of_Z (- z)))
  else PrimFloat.of_uint63 (Uint63.of_Z z).

(** The float nearest to [m]e[e], for a mantissa below 2^53 and at most 22
    decimal places either way: mantissa and power of ten are floats and one
    rounding gives the nearest quotient or product. *)
Definition b64_lit (m e : Z) : PrimFloat.float :=
  match e with
  | Zneg p => PrimFloat.div (b64_of_int m) (b64_of_int (Z.pow_pos 10 p))
  | _ => PrimFloat.mul (b64_of_int m) (b64_of_int (10 ^ e))
  end.

Definition b64_is_zero (x : PrimFloat.float) : bool :=
  PrimFloat.eqb x PrimFloat.zero.

Ltac small_cases a :=
  let E := fresh "E" in
  assert (E : (a = 0 \/ a = 1 \/ a = 2 \/ a = 3 \/ a = 4 \/ a = 5 \/ a = 6 \/
               a = 7 \/ a = 8)%Z) by lia;
  repeat (destruct E as [E | E]); subst a.

Lemma b64_lit_int (m : Z) : (0 <= m <= 8)%Z -> b64_lit m 0 = b64_of_int m.
Proof. intros Hm. small_cases m; vm_compute; reflexivity. Qed.

Lemma b64_of_int_add (a b : Z) :
  (0 <= a <= 8)%Z -> (0 <= b <= 8)%Z ->
  PrimFloat.add (b64_of_int a) (b64_of_int b) = b64_of_int (a + b).
Proof.
  intros Ha Hb. small_cases a; small_cases b; vm_compute; reflexivity.
Qed.

Lemma b64_of_int_mul (a b : Z) :
  (0 <= a <= 8)%Z -> (0 <= b <= 8)%Z ->
  PrimFloat.mul (b64_of_int a) (b64_of_int b) = b64_of_int (a * b).
Proof.
  intros Ha Hb. small_cases a; small_cases b; vm_compute; reflexivity.
Qed.

Definition Binary64 (libm : Libm) : PyFloat PrimFloat.float := {|
  of_int := b64_of_int;
  lit := b64_lit;
  fadd := PrimFloat.add;
  fsub := PrimFloat.sub;
  fmul := PrimFloat.mul;
  fdiv := PrimFloat.div;
  is_zero := b64_is_zero;
  math_atan := libm_atan libm;
  math_sin := libm_sin libm;
  math_log10 := libm_log10 libm;
  float_pow := libm_pow libm;
  lit_int := b64_lit_int;
  of_int_add := b64_of_int_add;
  of_int_mul := b64_of_int_mul
|}.

(** [scipy.constants.minute] and [scipy.constants.hp] as doubles, 60.0 and
    745.6998715822701. *)
Definition minute_b64 : PrimFloat.float := b64_of_int 60.

Definition hp_b64 : PrimFloat.float := b64_lit 7456998715822701 (-13).

(** The least positive double, 5e-324. *)
Definition least_positive_b64 : PrimFloat.float :=
  PrimFloat.next_up PrimFloat.zero.

(** [math.log10] checks its domain before the C library is consulted: at
    zero and below it raises [ValueError], whatever the library. *)
Definition with_domain_check (libm : Libm) : Libm := {|
  libm_atan := libm_atan libm;
  libm_sin := libm_sin libm;
  libm_log10 := fun x =>
    if PrimFloat.leb x PrimFloat.zero then Raise ValueError
    else libm_log10 libm x;
  libm_pow := libm_pow libm
|}.

(** A C library whose functions return their first argument, for calls whose
    outcome does not depend on the values the library returns. *)
Definition echo_libm : Libm := {|
  libm_atan := fun x => Ok x;
  libm_sin := fun x => Ok x;
  libm_log10 := fun x => Ok x;
  libm_pow := fun x _ => Ok x
|}.

(** A C library whose functions all refuse their argument, for calls that
    end before any of them is reached. *)
Definition refusing_libm : Libm := {|
  libm_atan := fun _ => Raise ValueError;
  libm_sin := fun _ => Raise ValueError;
  libm_log10 := fun _ => Raise ValueError;
  libm_pow := fun _ _ => Raise ValueError
|}.

(** ** Rational enclosures of the logarithm

    The documented values are checked against the real-number reading by
    enclosing [ln] between rationals.  [exp_neg_sumQ n q] is the pair of the
    [n]-th partial sum of the alternating series of [exp (- q)] and of its
    last term; on [0 <= q <= 1] the partial sums of even and odd rank
    enclose [exp (- q)]. *)

Fixpoint exp_neg_sumQ (n : nat) (q : Q) : Q * Q :=
  match n with
  | O => (1, 1)%Q
  | S k =>
    let (s, t) := exp_neg_sumQ k q in
    let t' := (- (t * q / (Z.of_nat (S k) # 1)))%Q in
    (Qred (s + t'), Qred t')
  end.

Definition exp_term (x : R) (i : nat) : R := (x ^ i / INR (fact i))%R.

(** [ln y <= hi], checked on rationals with [2 N] terms. *)
Definition ln_below (y hi : Q) (N : nat) : bool :=
  Qle_bool 0 hi && Qle_bool hi 1 && negb (Qle_bool y 0) &&
  Qle_bool (y * fst (exp_neg_sumQ (2 * N) hi)) 1.

(** [lo <= ln y], checked on rationals with [2 N + 1] terms. *)
Definition ln_above (y lo : Q) (N : nat) : bool :=
  Qle_bool 0 lo && Qle_bool lo 1 && negb (Qle_bool y 0) &&
  Qle_bool 1 (y * fst (exp_neg_sumQ (S (2 * N)) lo)).

(** * Properties *)

(** ** Loops *)

(** A loop whose body always succeeds, leaving the store alone, is a fold. *)
Lemma for__fold {S X A : Type} (xs : list X) (body : X -> A -> M S A)
  (step : A -> X -> A) (s : S) :
  (forall x acc, In x xs -> body x acc s = (Ok (step acc x), s)) ->
  forall acc, for_ xs body acc s = (Ok (fold_left step xs acc), s).
Proof.
  induction xs as [| x xs IH]; intros Hbody acc.
  - reflexivity.
  - simpl. unfold bind. rewrite Hbody by (left; reflexivity).
    apply IH. intros y acc' Hy. apply Hbody. right. exact Hy.
Qed.

Lemma getitem_nth {A : Type} (xs : list A) (n : nat) (d : A) :
  (n < length xs)%nat -> getitem xs n = Ok (nth n xs d).
Proof.
  intros Hn. unfold getitem.
  rewrite (nth_error_nth' xs d Hn). reflexivity.
Qed.

Lemma fold_left_ext_in {A X : Type} (f g : A -> X -> A) (xs : list X) :
  (forall a x, In x xs -> f a x = g a x) ->
  forall a, fold_left f xs a = fold_left g xs a.
Proof.
  induction xs as [| x xs IH]; intros Hfg a.
  - reflexivity.
  - simpl. rewrite Hfg by (left; reflexivity).
    apply IH. intros a' y Hy. apply Hfg. right. exact Hy.
Qed.

(** ** Table selection *)

Ltac split_tests :=
  repeat (match goal with
          | |- context [Z.eqb ?a ?b] => destruct (Z.eqb_spec a b)
          | |- context [Z.gtb ?a ?b] => destruct (Z.gtb_spec a b)
          end; subst; simpl; try lia).

Section Selection.
Context {F : Type} `{PyFloat F}.
Variable Catalogue : Type.

Lemma spec_table_total (Ntp rows : Z) : exists t, spec_table Ntp rows t.
Proof.
  destruct (Z.eq_dec Ntp 1) as [-> | HN1].
  - destruct (Z_gt_dec rows 4) as [Hgt | Hle].
    + exists Rows4_Pass1. constructor. exact Hgt.
    + destruct (Z.eq_dec rows 1) as [-> | H1]; [eexists; apply exact_1_1 |].
      destruct (Z.eq_dec rows 2) as [-> | H2]; [eexists; apply exact_1_2 |].
      destruct (Z.eq_dec rows 3) as [-> | H3]; [eexists; apply exact_1_3 |].
      destruct (Z.eq_dec rows 4) as [-> | H4]; [eexists; apply exact_1_4 |].
      exists Rows4_Pass2. apply fallback_default; unfold tabulated; simpl.
      * intros [E | [E | [E | [E | [E | [E | [E | [E | []]]]]]]]];
          inversion E; lia.
      * lia.
      * lia.
  - destruct (Z.eq_dec Ntp rows) as [<- | Hne].
    + destruct (Z_gt_dec Ntp 4) as [Hgt | Hle].
      * exists Rows4_Pass4. apply fallback_square; auto.
      * destruct (Z.eq_dec Ntp 2) as [-> | H2]; [eexists; apply exact_2_2 |].
        destruct (Z.eq_dec Ntp 3) as [-> | H3]; [eexists; apply exact_3_3 |].
        destruct (Z.eq_dec Ntp 4) as [-> | H4]; [eexists; apply exact_4_4 |].
        exists Rows4_Pass2. apply fallback_default; unfold tabulated; simpl.
        -- intros [E | [E | [E | [E | [E | [E | [E | [E | []]]]]]]]];
             inversion E; lia.
        -- lia.
        -- lia.
    + destruct (Z.eq_dec Ntp 2) as [-> | H2].
      * destruct (Z.eq_dec rows 4) as [-> | H4]; [eexists; apply exact_2_4 |].
        exists Rows4_Pass2. apply fallback_default; unfold tabulated; simpl.
        -- intros [E | [E | [E | [E | [E | [E | [E | [E | []]]]]]]]];
             inversion E; lia.
        -- lia.
        -- lia.
      * exists Rows4_Pass2. apply fallback_default; unfold tabulated; simpl.
        -- intros [E | [E | [E | [E | [E | [E | [E | [E | []]]]]]]]];
             inversion E; lia.
        -- lia.
        -- lia.
Qed.

Lemma spec_table_functional (Ntp rows : Z) (t t' : table_id) :
  spec_table Ntp rows t -> spec_table Ntp rows t' -> t = t'.
Proof.
  intros Ht Ht'.
  destruct Ht; inversion Ht'; subst; try reflexivity; try lia;
    try (exfalso;
         match goal with
         | Hn : ~ tabulated _ _ |- _ =>
           apply Hn; unfold tabulated; simpl; auto 10
         end);
    try (exfalso;
         match goal with
         | Hn : ~ (_ = _ /\ _) |- _ => apply Hn; split; [reflexivity | lia]
         end);
    try (exfalso;
         match goal with
         | Hn : ~ (_ /\ _ /\ _) |- _ => apply Hn; repeat split; lia
         end).
Qed.

Lemma select_coefs_spec (Ntp rows : Z) (t : table_id)
  (g : Globals F Catalogue) :
  spec_table Ntp rows t -> select_coefs Ntp rows g = (Ok (table_of t g), g).
Proof.
  intros Ht.
  destruct Ht as [ | | | | | | | | rows Hr | Ntp rows HN Hr E
                 | Ntp rows Htab Hone Hsquare ];
    unfold select_coefs; try reflexivity.
  - split_tests; reflexivity.
  - split_tests; reflexivity.
  - assert (Hnot : forall a b, tabulated a b -> (a, b) <> (Ntp, rows)).
    { intros a b Hab Eab. inversion Eab; subst. contradiction. }
    split_tests; try reflexivity;
      try (exfalso; eapply Hnot; [| reflexivity]; unfold tabulated; simpl;
           auto 10);
      try (exfalso; apply Hone; split; [reflexivity | lia]);
      try (exfalso; apply Hsquare; repeat split; lia).
Qed.

End Selection.

(** ** The series of [Ft_aircooler] *)

Section Series.
Context {F : Type} `{PyFloat F}.
Variable Catalogue : Type.
Variable LMTD : F -> F -> F -> F -> result F.

Local Open Scope pyfloat_scope.

(** [k + 1.] and [2.*(i + 1.)] are the floats of [k+1] and [2(i+1)]. *)
Lemma float_succ (k : nat) :
  (k < 4)%nat ->
  of_int (Z.of_nat k) + lit 1 0 = of_int (Z.of_nat (k + 1)).
Proof.
  intros Hk. rewrite lit_int by (simpl; lia).
  rewrite of_int_add by (simpl; lia).
  f_equal. lia.
Qed.

Lemma float_twice_succ (i : nat) :
  (i < 4)%nat ->
  lit 2 0 * (of_int (Z.of_nat i) + lit 1 0) =
  of_int (2 * Z.of_nat (i + 1)).
Proof.
  intros Hi. rewrite float_succ by exact Hi.
  rewrite lit_int by (simpl; lia).
  rewrite of_int_mul by (simpl; lia).
  reflexivity.
Qed.

Lemma shape_entry (n m : nat) (coefs : list (list F)) (k i : nat) :
  shape n m coefs -> (k < n)%nat -> (i < m)%nat ->
  exists row, getitem coefs k = Ok row /\ getitem row i = Ok (entry coefs k i).
Proof.
  intros [Hlen Hrows] Hk Hi.
  exists (nth k coefs []). split.
  - apply getitem_nth. lia.
  - unfold entry. apply getitem_nth.
    rewrite Forall_forall in Hrows.
    rewrite (Hrows (nth k coefs [])); [exact Hi |].
    apply nth_In. lia.
Qed.

(** The two nested loops of lines 198-201, on a square table. *)
Lemma series_loops (n : nat) (coefs : list (list F)) (rlm atanR : F)
  (x s : nat -> F) (g : Globals F Catalogue) :
  shape n n coefs ->
  (forall k, (k < n)%nat ->
     float_pow (lit 1 0 - rlm) (of_int (Z.of_nat k) + lit 1 0) = Ok (x k)) ->
  (forall i, (i < n)%nat ->
     math_sin (lit 2 0 * (of_int (Z.of_nat i) + lit 1 0) * atanR) = Ok (s i)) ->
  for_ (range n)
    (fun k tot =>
       bind (lift (float_pow (lit 1 0 - rlm) (of_int (Z.of_nat k) + lit 1 0)))
         (fun x0 =>
            for_ (range n)
              (fun i tot =>
                 bind (lift (getitem coefs k)) (fun row =>
                 bind (lift (getitem row i)) (fun c =>
                 bind (lift (math_sin
                         (lit 2 0 * (of_int (Z.of_nat i) + lit 1 0) * atanR)))
                   (fun s => ret (tot + c * x0 * s)))))
              tot))
    (of_int 0) g =
  (Ok (double_sum n n (fun k i => entry coefs k i * x k * s i)), g).
Proof.
  intros Hshape Hpow Hsin. unfold double_sum, range.
  apply for__fold. intros k tot Hk.
  apply in_seq in Hk. unfold bind at 1, lift at 1.
  rewrite Hpow by lia.
  apply for__fold. intros i tot' Hi.
  apply in_seq in Hi.
  destruct (shape_entry n n coefs k i Hshape) as [row [Hrow Hc]]; [lia | lia |].
  unfold bind, lift, ret. rewrite Hrow, Hc, Hsin by lia. reflexivity.
Qed.

Lemma module_tables_shape (c : Catalogue) (t : table_id) :
  shape 4 4 (table_of t (module_globals c)).
Proof.
  destruct t; (split; [reflexivity | repeat constructor]).
Qed.

(** The run of [Ft_aircooler] on the imported module, with the exponents and
    the angles as the code computes them. *)
Lemma Ft_aircooler_run (c : Catalogue) (Thi Tho Tci Tco : F)
  (Ntp rows : Z) (t : table_id) (dTlm atanR : F) (x s : nat -> F) :
  spec_table Ntp rows t ->
  LMTD Thi Tho Tci Tco = Ok dTlm ->
  is_zero (Thi - Tci) = false ->
  is_zero (Tco - Tci) = false ->
  math_atan (fdiv (Thi - Tho) (Tco - Tci)) = Ok atanR ->
  (forall k, (k < 4)%nat ->
     float_pow (lit 1 0 - fdiv dTlm (Thi - Tci))
       (of_int (Z.of_nat k) + lit 1 0) = Ok (x k)) ->
  (forall i, (i < 4)%nat ->
     math_sin (lit 2 0 * (of_int (Z.of_nat i) + lit 1 0) * atanR) = Ok (s i)) ->
  Ft_aircooler LMTD Thi Tho Tci Tco Ntp rows (module_globals c) =
  (Ok (lit 1 0 -
       double_sum 4 4
         (fun k i => entry (table_of t (module_globals c)) k i * x k * s i)),
   module_globals c).
Proof.
  intros Ht HL Hz1 Hz2 Hatan Hpow Hsin.
  unfold Ft_aircooler, bind at 1, lift at 1. rewrite HL.
  unfold bind at 1, lift at 1, truediv at 1. rewrite Hz1.
  unfold bind at 1, lift at 1, truediv at 1. rewrite Hz2.
  unfold bind at 1. rewrite (select_coefs_spec Catalogue Ntp rows t _ Ht).
  unfold bind at 1, lift at 1. rewrite Hatan.
  unfold bind at 1.
  destruct (module_tables_shape c t) as [Hlen Hrows].
  rewrite Hlen.
  rewrite (series_loops 4 (table_of t (module_globals c))
             (fdiv dTlm (Thi - Tci)) atanR x s).
  - reflexivity.
  - split; assumption.
  - exact Hpow.
  - exact Hsin.
Qed.

(** C1.  Whenever the arithmetic is defined (the collaborator [LMTD]
    returns, neither [Thi - Tci] nor [Tco - Tci] is zero, and [atan], the four
    powers and the four sines return), a call of [Ft_aircooler] on the imported
    module returns [1 - sum_k sum_i coefs[k][i] * (1-rlm)^(k+1) *
    sin(2(i+1) atan R)] for [k], [i] in 0..3, with [rlm = LMTD/(Thi-Tci)],
    [R = (Thi-Tho)/(Tco-Tci)] and [coefs] the table selected for
    [(Ntp, rows)]; the terms are accumulated from 0 with [i] running
    fastest. *)
Theorem Ft_aircooler_series (c : Catalogue) (Thi Tho Tci Tco : F)
  (Ntp rows : Z) (t : table_id) (dTlm atanR : F) (x s : nat -> F) :
  spec_table Ntp rows t ->
  LMTD Thi Tho Tci Tco = Ok dTlm ->
  is_zero (Thi - Tci) = false ->
  is_zero (Tco - Tci) = false ->
  let rlm := fdiv dTlm (Thi - Tci) in
  let R := fdiv (Thi - Tho) (Tco - Tci) in
  math_atan R = Ok atanR ->
  (forall k, (k < 4)%nat ->
     float_pow (lit 1 0 - rlm) (of_int (Z.of_nat (k + 1))) = Ok (x k)) ->
  (forall i, (i < 4)%nat ->
     math_sin (of_int (2 * Z.of_nat (i + 1)) * atanR) = Ok (s i)) ->
  Ft_aircooler LMTD Thi Tho Tci Tco Ntp rows (module_globals c) =
  (Ok (lit 1 0 -
       double_sum 4 4
         (fun k i => entry (table_of t (module_globals c)) k i * x k * s i)),
   module_globals c).
Proof.
  intros Ht HL Hz1 Hz2 rlm R Hatan Hpow Hsin.
  apply (Ft_aircooler_run c Thi Tho Tci Tco Ntp rows t dTlm atanR x s);
    try assumption.
  - intros k Hk. rewrite float_succ by exact Hk. apply Hpow. exact Hk.
  - intros i Hi. rewrite float_twice_succ by exact Hi. apply Hsin. exact Hi.
Qed.

End Series.

(** ** Selection, defaults and the zero divisor *)

Section Calls.
Context {F : Type} `{PyFloat F}.
Variable Catalogue : Type.
Variable LMTD : F -> F -> F -> F -> result F.

Local Open Scope pyfloat_scope.

Lemma bind_lift_ext {A B : Type} (r : result A)
  (k k' : A -> M (Globals F Catalogue) B) (g : Globals F Catalogue) :
  (forall a, k a g = k' a g) -> bind (lift r) k g = bind (lift r) k' g.
Proof.
  intros Hk. unfold bind, lift. destruct r as [a | e]; [apply Hk | reflexivity].
Qed.

(** Past the selection, a call is the series over the table selected: lines
    165-167, then lines 195-202 on [table_of t]. *)
Lemma Ft_aircooler_after_selection (Thi Tho Tci Tco : F) (Ntp rows : Z)
  (t : table_id) (g : Globals F Catalogue) :
  spec_table Ntp rows t ->
  Ft_aircooler LMTD Thi Tho Tci Tco Ntp rows g =
  bind (lift (LMTD Thi Tho Tci Tco)) (fun dTlm =>
  bind (lift (truediv dTlm (Thi - Tci))) (fun rlm =>
  bind (lift (truediv (Thi - Tho) (Tco - Tci))) (fun R =>
  series_of Catalogue (table_of t g) rlm R))) g.
Proof.
  intros Ht. unfold Ft_aircooler.
  apply bind_lift_ext. intros dTlm.
  apply bind_lift_ext. intros rlm.
  apply bind_lift_ext. intros R.
  unfold bind at 1. rewrite (select_coefs_spec Catalogue Ntp rows t g Ht).
  reflexivity.
Qed.

(** C2.  For every pair of integers [(Ntp, rows)], the positive ones among
    them, the selection rules name exactly one table, and a call of
    [Ft_aircooler] selects it without raising and evaluates its series over
    it: the [if]/[elif] chain returns that table, and the call is the
    evaluation of [LMTD], of the two quotients and of the series of lines
    195-202 over that table.  The table is the one of the pair for the eight
    tabulated pairs, the 4-rows-1-pass table for [Ntp = 1], [rows > 4], the
    4-rows-4-passes table for [Ntp = rows > 4], the 4-rows-2-passes table
    otherwise.  In particular a call with [Ntp = 1], [rows = 5] is the call
    with [Ntp = 1], [rows = 4], and a call with [Ntp = 5], [rows = 5]
    evaluates the series over the 4-rows-4-passes table, as the call with
    [Ntp = 4], [rows = 4] does. *)
Theorem Ft_aircooler_table_selection :
  (forall Ntp rows : Z,
     exists t : table_id,
       spec_table Ntp rows t /\
       (forall t', spec_table Ntp rows t' -> t' = t) /\
       forall (Thi Tho Tci Tco : F) (g : Globals F Catalogue),
         select_coefs Ntp rows g = (Ok (table_of t g), g) /\
         Ft_aircooler LMTD Thi Tho Tci Tco Ntp rows g =
         bind (lift (LMTD Thi Tho Tci Tco)) (fun dTlm =>
         bind (lift (truediv dTlm (Thi - Tci))) (fun rlm =>
         bind (lift (truediv (Thi - Tho) (Tco - Tci))) (fun R =>
         series_of Catalogue (table_of t g) rlm R))) g) /\
  (forall (Thi Tho Tci Tco : F) (g : Globals F Catalogue),
     Ft_aircooler LMTD Thi Tho Tci Tco 1 5 g =
     Ft_aircooler LMTD Thi Tho Tci Tco 1 4 g) /\
  (forall (Thi Tho Tci Tco : F) (g : Globals F Catalogue),
     select_coefs 5 5 g = (Ok (_crossflow_4_rows_4_pass g), g) /\
     Ft_aircooler LMTD Thi Tho Tci Tco 5 5 g =
     bind (lift (LMTD Thi Tho Tci Tco)) (fun dTlm =>
     bind (lift (truediv dTlm (Thi - Tci))) (fun rlm =>
     bind (lift (truediv (Thi - Tho) (Tco - Tci))) (fun R =>
     series_of Catalogue (_crossflow_4_rows_4_pass g) rlm R))) g /\
     Ft_aircooler LMTD Thi Tho Tci Tco 5 5 g =
     Ft_aircooler LMTD Thi Tho Tci Tco 4 4 g).
Proof.
  assert (H15 : spec_table 1 5 Rows4_Pass1) by (constructor; lia).
  assert (H55 : spec_table 5 5 Rows4_Pass4) by (apply fallback_square; lia).
  split; [| split].
  - intros Ntp rows.
    destruct (spec_table_total Ntp rows) as [t Ht].
    exists t. split; [exact Ht | split].
    + intros t' Ht'. exact (spec_table_functional Ntp rows t' t Ht' Ht).
    + intros Thi Tho Tci Tco g. split.
      * apply select_coefs_spec. exact Ht.
      * apply Ft_aircooler_after_selection. exact Ht.
  - intros Thi Tho Tci Tco g.
    rewrite (Ft_aircooler_after_selection Thi Tho Tci Tco 1 5 Rows4_Pass1 g
               H15).
    rewrite (Ft_aircooler_after_selection Thi Tho Tci Tco 1 4 Rows4_Pass1 g
               exact_1_4).
    reflexivity.
  - intros Thi Tho Tci Tco g. split; [| split].
    + exact (select_coefs_spec Catalogue 5 5 Rows4_Pass4 g H55).
    + exact (Ft_aircooler_after_selection Thi Tho Tci Tco 5 5 Rows4_Pass4 g
               H55).
    + rewrite (Ft_aircooler_after_selection Thi Tho Tci Tco 5 5 Rows4_Pass4 g
                 H55).
      rewrite (Ft_aircooler_after_selection Thi Tho Tci Tco 4 4 Rows4_Pass4 g
                 exact_4_4).
      reflexivity.
Qed.

(** C10.  [Ntp] and [rows] default to 1: a call that passes the four
    temperatures only is the call with [Ntp = 1], [rows = 1], and it
    evaluates the series over the 1-row-1-pass table: on any store it is the
    evaluation of [LMTD], of the two quotients and of the series of lines
    195-202 over [_crossflow_1_row_1_pass], and on the imported module,
    whenever the arithmetic is defined, it returns 1 minus the sixteen terms
    [_crossflow_1_row_1_pass[k][i] * (1-rlm)^(k+1) * sin(2(i+1) atan R)].
    An argument that is passed is used as passed. *)
Theorem Ft_aircooler_defaults (Thi Tho Tci Tco : F) (g : Globals F Catalogue) :
  Ft_aircooler_call LMTD Thi Tho Tci Tco None None g =
    Ft_aircooler LMTD Thi Tho Tci Tco 1 1 g /\
  select_coefs 1 1 g = (Ok (_crossflow_1_row_1_pass g), g) /\
  Ft_aircooler_call LMTD Thi Tho Tci Tco None None g =
    bind (lift (LMTD Thi Tho Tci Tco)) (fun dTlm =>
    bind (lift (truediv dTlm (Thi - Tci))) (fun rlm =>
    bind (lift (truediv (Thi - Tho) (Tco - Tci))) (fun R =>
    series_of Catalogue (_crossflow_1_row_1_pass g) rlm R))) g /\
  (forall (c : Catalogue) (dTlm atanR : F) (x s : nat -> F),
     LMTD Thi Tho Tci Tco = Ok dTlm ->
     is_zero (Thi - Tci) = false ->
     is_zero (Tco - Tci) = false ->
     math_atan (fdiv (Thi - Tho) (Tco - Tci)) = Ok atanR ->
     (forall k, (k < 4)%nat ->
        float_pow (lit 1 0 - fdiv dTlm (Thi - Tci))
          (of_int (Z.of_nat (k + 1))) = Ok (x k)) ->
     (forall i, (i < 4)%nat ->
        math_sin (of_int (2 * Z.of_nat (i + 1)) * atanR) = Ok (s i)) ->
     Ft_aircooler_call LMTD Thi Tho Tci Tco None None (module_globals c) =
     (Ok (lit 1 0 -
          double_sum 4 4
            (fun k i => entry _crossflow_1_row_1_pass_init k i * x k * s i)),
      module_globals c)) /\
  (forall n : Z,
     Ft_aircooler_call LMTD Thi Tho Tci Tco (Some n) None g =
       Ft_aircooler LMTD Thi Tho Tci Tco n 1 g /\
     Ft_aircooler_call LMTD Thi Tho Tci Tco None (Some n) g =
       Ft_aircooler LMTD Thi Tho Tci Tco 1 n g).
Proof.
  split; [reflexivity | split; [| split; [| split]]].
  - exact (select_coefs_spec Catalogue 1 1 Rows1_Pass1 g exact_1_1).
  - exact (Ft_aircooler_after_selection Thi Tho Tci Tco 1 1 Rows1_Pass1 g
             exact_1_1).
  - intros c dTlm atanR x s HL Hz1 Hz2 Hatan Hpow Hsin.
    apply (Ft_aircooler_run Catalogue LMTD c Thi Tho Tci Tco 1 1 Rows1_Pass1
             dTlm atanR x s); try assumption.
    + exact exact_1_1.
    + intros k Hk. rewrite float_succ by exact Hk. apply Hpow. exact Hk.
    + intros i Hi. rewrite float_twice_succ by exact Hi. apply Hsin. exact Hi.
  - intros n. split; reflexivity.
Qed.

(** The division of line 167 is reached only through the one of line 166;
    both raise [ZeroDivisionError] on a zero divisor. *)
Lemma Ft_aircooler_zero_divisor (Thi Tho Tci Tco : F) (Ntp rows : Z)
  (g : Globals F Catalogue) (dTlm : F) :
  is_zero (Tco - Tci) = true ->
  LMTD Thi Tho Tci Tco = Ok dTlm ->
  Ft_aircooler LMTD Thi Tho Tci Tco Ntp rows g = (Raise ZeroDivisionError, g).
Proof.
  intros Hz HL. unfold Ft_aircooler, bind, lift. rewrite HL.
  unfold truediv. destruct (is_zero (Thi - Tci)); [reflexivity |].
  rewrite Hz. reflexivity.
Qed.

(** C3, as the code has it.  When [Tco - Tci] is zero, [Ft_aircooler] has no
    special case for it and returns no value, infinite or otherwise: the call
    ends in an exception and leaves the store untouched.  The exception is
    the [ZeroDivisionError] of the division whenever [LMTD] itself returns,
    and the one [LMTD] raised otherwise. *)
Theorem Ft_aircooler_zero_range_raises (Thi Tho Tci Tco : F) (Ntp rows : Z)
  (g : Globals F Catalogue) :
  is_zero (Tco - Tci) = true ->
  (exists e, Ft_aircooler LMTD Thi Tho Tci Tco Ntp rows g = (Raise e, g)) /\
  (forall dTlm, LMTD Thi Tho Tci Tco = Ok dTlm ->
     Ft_aircooler LMTD Thi Tho Tci Tco Ntp rows g =
     (Raise ZeroDivisionError, g)) /\
  (forall e, LMTD Thi Tho Tci Tco = Raise e ->
     Ft_aircooler LMTD Thi Tho Tci Tco Ntp rows g = (Raise e, g)).
Proof.
  intros Hz. split; [| split].
  - destruct (LMTD Thi Tho Tci Tco) as [dTlm | e] eqn:HL.
    + exists ZeroDivisionError.
      exact (Ft_aircooler_zero_divisor Thi Tho Tci Tco Ntp rows g dTlm Hz HL).
    + exists e. unfold Ft_aircooler, bind, lift. rewrite HL. reflexivity.
  - intros dTlm HL.
    exact (Ft_aircooler_zero_divisor Thi Tho Tci Tco Ntp rows g dTlm Hz HL).
  - intros e HL. unfold Ft_aircooler, bind, lift. rewrite HL. reflexivity.
Qed.

End Calls.

(** ** Purity *)

Section Blindness.
Context {F : Type} `{PyFloat F} {Catalogue : Type}.

Lemma blind_ret {A : Type} (a : A) :
  blind (ret a : M (Globals F Catalogue) A).
Proof. split; reflexivity. Qed.

Lemma blind_lift {A : Type} (r : result A) :
  blind (lift r : M (Globals F Catalogue) A).
Proof. split; reflexivity. Qed.

Lemma blind_bind {A B : Type} (c : M (Globals F Catalogue) A)
  (k : A -> M (Globals F Catalogue) B) :
  blind c -> (forall a, blind (k a)) -> blind (bind c k).
Proof.
  intros [Hw Hr] Hk. split.
  - intros g. unfold bind. specialize (Hw g).
    destruct (c g) as [[a | e] g1]; simpl in Hw; subst g1.
    + apply (Hk a).
    + reflexivity.
  - intros g g'. unfold bind.
    pose proof (Hw g) as E1. pose proof (Hw g') as E2.
    pose proof (Hr g g') as E3.
    destruct (c g) as [[a | e] g1], (c g') as [[a' | e'] g1'];
      simpl in E1, E2, E3; subst g1 g1'; try discriminate.
    + injection E3 as ->. apply (Hk a').
    + injection E3 as ->. reflexivity.
Qed.

Lemma blind_for {X A : Type} (xs : list X)
  (body : X -> A -> M (Globals F Catalogue) A) :
  (forall x acc, blind (body x acc)) -> forall acc, blind (for_ xs body acc).
Proof.
  intros Hbody. induction xs as [| x xs IH]; intros acc.
  - apply blind_ret.
  - simpl. apply blind_bind; [apply Hbody | exact IH].
Qed.

Lemma blind_series_of (coefs : list (list F)) (rlm R : F) :
  blind (series_of Catalogue coefs rlm R).
Proof.
  unfold series_of.
  repeat first
    [ apply blind_ret
    | apply blind_lift
    | apply blind_for; intros
    | apply blind_bind; [| intros] ].
Qed.

End Blindness.

Section Frames.
Context {F : Type} `{PyFloat F} {Catalogue : Type}.
Variable same : Globals F Catalogue -> Globals F Catalogue -> Prop.

Lemma frame_ret {A : Type} (a : A) :
  frame same (ret a : M (Globals F Catalogue) A).
Proof. split; intros g; [reflexivity | intros g' _; reflexivity]. Qed.

Lemma frame_lift {A : Type} (r : result A) :
  frame same (lift r : M (Globals F Catalogue) A).
Proof. split; intros g; [reflexivity | intros g' _; reflexivity]. Qed.

Lemma frame_blind {A : Type} (c : M (Globals F Catalogue) A) :
  blind c -> frame same c.
Proof.
  intros [Hw Hr]. split; [exact Hw |]. intros g g' _. apply Hr.
Qed.

Lemma frame_gets {A : Type} (field : Globals F Catalogue -> A) :
  (forall g g', same g g' -> field g = field g') -> frame same (gets field).
Proof.
  intros Hfield. split; intros g; [reflexivity |].
  intros g' Hsame. unfold gets. simpl. rewrite (Hfield g g' Hsame).
  reflexivity.
Qed.

Lemma frame_bind {A B : Type} (c : M (Globals F Catalogue) A)
  (k : A -> M (Globals F Catalogue) B) :
  frame same c -> (forall a, frame same (k a)) -> frame same (bind c k).
Proof.
  intros [Hc1 Hc2] Hk. split.
  - intros g. unfold bind. specialize (Hc1 g).
    destruct (c g) as [[a | e] g1]; simpl in Hc1; subst g1.
    + apply (Hk a).
    + reflexivity.
  - intros g g' Hsame. unfold bind.
    pose proof (Hc1 g) as E1. pose proof (Hc1 g') as E2.
    pose proof (Hc2 g g' Hsame) as E3.
    destruct (c g) as [[a | e] g1], (c g') as [[a' | e'] g1'];
      simpl in E1, E2, E3; subst g1 g1'; try discriminate.
    + injection E3 as ->. apply (Hk a'). exact Hsame.
    + injection E3 as ->. reflexivity.
Qed.

Lemma frame_for {X A : Type} (xs : list X)
  (body : X -> A -> M (Globals F Catalogue) A) :
  (forall x acc, frame same (body x acc)) ->
  forall acc, frame same (for_ xs body acc).
Proof.
  intros Hbody. induction xs as [| x xs IH]; intros acc.
  - apply frame_ret.
  - simpl. apply frame_bind; [apply Hbody | exact IH].
Qed.

Lemma frame_pure_call {A : Type} (c : M (Globals F Catalogue) A) :
  frame same c -> pure_call same c.
Proof.
  intros [Hw Hr]. split; [exact Hw | split; [exact Hr |]].
  intros g. rewrite (Hw g). reflexivity.
Qed.

End Frames.

Ltac frame_steps :=
  repeat first
    [ apply frame_ret
    | apply frame_lift
    | apply frame_for; intros
    | apply frame_bind; [| intros]
    | match goal with
      | |- frame _ (if ?b then _ else _) => destruct b
      | |- frame _ (let x := _ in _) => cbv zeta
      end ].

Section Purity.
Context {F : Type} `{PyFloat F}.
Variable Catalogue : Type.
Variable LMTD : F -> F -> F -> F -> M (Globals F (Imports F Catalogue)) F.
Variable Reynolds : F -> F -> F -> F -> M (Globals F (Imports F Catalogue)) F.
Variable Prandtl : F -> F -> F -> M (Globals F (Imports F Catalogue)) F.
Variable fin_efficiency_Kern_Kraus :
  F -> F -> F -> F -> F -> M (Globals F (Imports F Catalogue)) F.

Lemma frame_gets_table (t : table_id) :
  frame same_tables
    (gets (table_of t)
       : M (Globals F (Imports F Catalogue)) (list (list F))).
Proof. apply frame_gets. intros g g' Hsame. apply Hsame. Qed.

Lemma frame_select_coefs (Ntp rows : Z) :
  frame same_tables
    (select_coefs Ntp rows
       : M (Globals F (Imports F Catalogue)) (list (list F))).
Proof.
  unfold select_coefs.
  repeat match goal with
         | |- context [if ?b then _ else _] => destruct b
         end;
    first [ exact (frame_gets_table Rows1_Pass1)
          | exact (frame_gets_table Rows2_Pass1)
          | exact (frame_gets_table Rows3_Pass1)
          | exact (frame_gets_table Rows4_Pass1)
          | exact (frame_gets_table Rows2_Pass2)
          | exact (frame_gets_table Rows3_Pass3)
          | exact (frame_gets_table Rows4_Pass4)
          | exact (frame_gets_table Rows4_Pass2) ].
Qed.

(** What follows the call of [LMTD] in [Ft_aircooler]. *)
Lemma frame_after_LMTD (Thi Tho Tci Tco dTlm : F) (Ntp rows : Z) :
  frame same_tables
    (bind (lift (truediv dTlm (fsub Thi Tci))) (fun rlm =>
     bind (lift (truediv (fsub Thi Tho) (fsub Tco Tci))) (fun R =>
     bind (select_coefs Ntp rows) (fun coefs =>
     series_of (Imports F Catalogue) coefs rlm R)))).
Proof.
  apply frame_bind; [apply frame_lift | intros rlm].
  apply frame_bind; [apply frame_lift | intros R].
  apply frame_bind; [apply frame_select_coefs | intros coefs].
  apply frame_blind. apply blind_series_of.
Qed.

(** [Ft_aircooler] hands on the store that [LMTD] left: it writes nothing of
    its own. *)
Lemma Ft_aircooler_store (Thi Tho Tci Tco : F) (Ntp rows : Z)
  (g : Globals F (Imports F Catalogue)) :
  snd (Namespace.Ft_aircooler LMTD Thi Tho Tci Tco Ntp rows g) =
  snd (LMTD Thi Tho Tci Tco g).
Proof.
  unfold Namespace.Ft_aircooler. unfold bind at 1.
  destruct (LMTD Thi Tho Tci Tco g) as [[dTlm | e] g1]; [| reflexivity].
  exact (proj1 (frame_after_LMTD Thi Tho Tci Tco dTlm Ntp rows) g1).
Qed.

Lemma frame_Ft_aircooler (Thi Tho Tci Tco : F) (Ntp rows : Z) :
  (forall Thi Tho Tci Tco, blind (LMTD Thi Tho Tci Tco)) ->
  frame same_tables (Namespace.Ft_aircooler LMTD Thi Tho Tci Tco Ntp rows).
Proof.
  intros HL. unfold Namespace.Ft_aircooler.
  apply frame_bind; [apply frame_blind, HL | intros dTlm].
  apply frame_after_LMTD.
Qed.

Lemma frame_hp :
  frame Namespace.same_hp
    (Namespace.hp : M (Globals F (Imports F Catalogue)) F).
Proof. apply frame_gets. intros g g' Hsame. exact Hsame. Qed.

Lemma frame_air_cooler_noise_GPSA (tip_speed power : F) :
  frame Namespace.same_constants
    (Namespace.air_cooler_noise_GPSA (Catalogue := Catalogue)
       tip_speed power).
Proof.
  unfold Namespace.air_cooler_noise_GPSA.
  apply frame_bind;
    [apply frame_gets; intros g g' [_ Hm]; exact Hm | intros minute].
  cbv zeta.
  apply frame_bind;
    [apply frame_gets; intros g g' [Hh _]; exact Hh | intros hp].
  frame_steps.
Qed.

Lemma frame_air_cooler_noise_Mukherjee (tip_speed power fan_diameter : F)
  (induced : bool) :
  frame Namespace.same_hp
    (Namespace.air_cooler_noise_Mukherjee (Catalogue := Catalogue)
       tip_speed power fan_diameter induced).
Proof.
  unfold Namespace.air_cooler_noise_Mukherjee.
  apply frame_bind; [apply frame_lift | intros l1].
  apply frame_bind; [apply frame_hp | intros hp].
  frame_steps.
Qed.

Lemma frame_h_Briggs_Young
  (m A A_min A_increase A_fin A_tube_showing tube_diameter fin_diameter
   fin_thickness bare_length rho Cp mu k k_fin : F) :
  (forall V D rho mu, blind (Reynolds V D rho mu)) ->
  (forall Cp mu k, blind (Prandtl Cp mu k)) ->
  (forall Do D_fin t_fin k_fin h,
     blind (fin_efficiency_Kern_Kraus Do D_fin t_fin k_fin h)) ->
  frame Namespace.any_store
    (Namespace.h_Briggs_Young Reynolds Prandtl fin_efficiency_Kern_Kraus
       m A A_min A_increase A_fin A_tube_showing tube_diameter fin_diameter
       fin_thickness bare_length rho Cp mu k k_fin).
Proof.
  intros HRe HPr Heff. unfold Namespace.h_Briggs_Young. cbv zeta.
  apply frame_bind; [apply frame_lift | intros V_max].
  apply frame_bind; [apply frame_blind, HRe | intros Re].
  apply frame_bind; [apply frame_blind, HPr | intros Pr].
  do 7 (apply frame_bind; [apply frame_lift | intros ?]).
  apply frame_bind; [apply frame_blind, Heff | intros efficiency].
  frame_steps.
Qed.

Lemma frame_h_ESDU_highfin_staggered
  (m A A_min A_increase A_fin A_tube_showing tube_diameter fin_diameter
   fin_thickness bare_length pitch_parallel pitch_normal rho Cp mu k k_fin : F) :
  (forall V D rho mu, blind (Reynolds V D rho mu)) ->
  (forall Cp mu k, blind (Prandtl Cp mu k)) ->
  (forall Do D_fin t_fin k_fin h,
     blind (fin_efficiency_Kern_Kraus Do D_fin t_fin k_fin h)) ->
  frame Namespace.any_store
    (Namespace.h_ESDU_highfin_staggered Reynolds Prandtl
       fin_efficiency_Kern_Kraus
       m A A_min A_increase A_fin A_tube_showing tube_diameter fin_diameter
       fin_thickness bare_length pitch_parallel pitch_normal rho Cp mu k
       k_fin).
Proof.
  intros HRe HPr Heff. unfold Namespace.h_ESDU_highfin_staggered. cbv zeta.
  apply frame_bind; [apply frame_lift | intros V_max].
  apply frame_bind; [apply frame_blind, HRe | intros Re].
  apply frame_bind; [apply frame_blind, HPr | intros Pr].
  do 7 (apply frame_bind; [apply frame_lift | intros ?]).
  apply frame_bind; [apply frame_blind, Heff | intros efficiency].
  frame_steps.
Qed.


End Purity.

(** With callees that are functions of their arguments, the bodies in the
    namespace are the bodies of the embedding that takes them as
    parameters. *)
Lemma Namespace_agrees {F : Type} `{PyFloat F} (Catalogue : Type)
  (LMTD : F -> F -> F -> F -> result F)
  (Reynolds : F -> F -> F -> F -> result F)
  (Prandtl : F -> F -> F -> result F)
  (fin_efficiency_Kern_Kraus : F -> F -> F -> F -> F -> result F)
  (g : Globals F (Imports F Catalogue)) :
  (forall Thi Tho Tci Tco Ntp rows,
     Namespace.Ft_aircooler
       (fun Thi Tho Tci Tco => lift (LMTD Thi Tho Tci Tco))
       Thi Tho Tci Tco Ntp rows g =
     Ft_aircooler LMTD Thi Tho Tci Tco Ntp rows g) /\
  (forall tip_speed power,
     Namespace.air_cooler_noise_GPSA tip_speed power g =
     air_cooler_noise_GPSA (imported_hp (catalogue g))
       (imported_minute (catalogue g)) tip_speed power g) /\
  (forall tip_speed power fan_diameter induced,
     Namespace.air_cooler_noise_Mukherjee tip_speed power fan_diameter
       induced g =
     air_cooler_noise_Mukherjee (imported_hp (catalogue g)) tip_speed power
       fan_diameter induced g) /\
  (forall m A A_min A_increase A_fin A_tube_showing tube_diameter
          fin_diameter fin_thickness bare_length rho Cp mu k k_fin,
     Namespace.h_Briggs_Young
       (fun V D rho mu => lift (Reynolds V D rho mu))
       (fun Cp mu k => lift (Prandtl Cp mu k))
       (fun Do D_fin t_fin k_fin h =>
          lift (fin_efficiency_Kern_Kraus Do D_fin t_fin k_fin h))
       m A A_min A_increase A_fin A_tube_showing tube_diameter fin_diameter
       fin_thickness bare_length rho Cp mu k k_fin g =
     h_Briggs_Young Reynolds Prandtl fin_efficiency_Kern_Kraus
       m A A_min A_increase A_fin A_tube_showing tube_diameter fin_diameter
       fin_thickness bare_length rho Cp mu k k_fin g) /\
  (forall m A A_min A_increase A_fin A_tube_showing tube_diameter
          fin_diameter fin_thickness bare_length pitch_parallel pitch_normal
          rho Cp mu k k_fin,
     Namespace.h_ESDU_highfin_staggered
       (fun V D rho mu => lift (Reynolds V D rho mu))
       (fun Cp mu k => lift (Prandtl Cp mu k))
       (fun Do D_fin t_fin k_fin h =>
          lift (fin_efficiency_Kern_Kraus Do D_fin t_fin k_fin h))
       m A A_min A_increase A_fin A_tube_showing tube_diameter fin_diameter
       fin_thickness bare_length pitch_parallel pitch_normal rho Cp mu k
       k_fin g =
     h_ESDU_highfin_staggered Reynolds Prandtl fin_efficiency_Kern_Kraus
       m A A_min A_increase A_fin A_tube_showing tube_diameter fin_diameter
       fin_thickness bare_length pitch_parallel pitch_normal rho Cp mu k
       k_fin g).
Proof.
  split; [| split; [| split; [| split]]]; intros; reflexivity.
Qed.

(** A callee that writes is seen through the call: with an [LMTD] that
    empties the 1-row-1-pass table, [Ft_aircooler] hands on the store with
    the table emptied, which is not the imported one. *)
Lemma Ft_aircooler_with_clearing_LMTD {F : Type} `{PyFloat F}
  (Catalogue : Type) (c : Imports F Catalogue)
  (dTlm Thi Tho Tci Tco : F) (Ntp rows : Z) :
  snd (Namespace.Ft_aircooler (Namespace.LMTD_clearing dTlm)
         Thi Tho Tci Tco Ntp rows (module_globals c)) =
  clear_one_row (module_globals c) /\
  clear_one_row (module_globals c) <> module_globals c.
Proof.
  split.
  - rewrite Ft_aircooler_store. reflexivity.
  - intros E.
    assert (E1 : _crossflow_1_row_1_pass (clear_one_row (module_globals c)) =
                 _crossflow_1_row_1_pass (module_globals c))
      by (rewrite E; reflexivity).
    discriminate E1.
Qed.


(** ** The single-expression formulas *)

Section Formulas.
Context {F : Type} `{PyFloat F}.
Variable Catalogue : Type.
Variable Reynolds : F -> F -> F -> F -> result F.
Variable Prandtl : F -> F -> F -> result F.
Variable fin_efficiency_Kern_Kraus : F -> F -> F -> F -> F -> result F.
Variable hp : F.
Variable minute : F.

Local Open Scope pyfloat_scope.

(** In any arithmetic, the induced-draft outcome is the forced-draft one with
    3.0 subtracted from the value; an exception is the same in both. *)
Lemma air_cooler_noise_Mukherjee_induced (tip_speed power fan_diameter : F)
  (g : Globals F Catalogue) :
  air_cooler_noise_Mukherjee hp tip_speed power fan_diameter true g =
  (result_map (fun noise => noise - lit 3 0)
     (fst (air_cooler_noise_Mukherjee hp tip_speed power fan_diameter false g)),
   g).
Proof.
  unfold air_cooler_noise_Mukherjee, bind, lift, ret.
  destruct (math_log10 tip_speed) as [l1 | e]; [| reflexivity].
  destruct (truediv power hp) as [p | e]; [| reflexivity].
  destruct (math_log10 p) as [l2 | e]; [| reflexivity].
  destruct (math_log10 fan_diameter) as [l3 | e]; reflexivity.
Qed.

(** The run of [air_cooler_noise_GPSA] in any arithmetic: once [hp] is not
    zero and the two logarithms return. *)
Lemma air_cooler_noise_GPSA_run (tip_speed power l1 l2 : F)
  (g : Globals F Catalogue) :
  is_zero hp = false ->
  math_log10 (fdiv (tip_speed * minute) (lit 3048 (-1))) = Ok l1 ->
  math_log10 (fdiv power hp) = Ok l2 ->
  air_cooler_noise_GPSA hp minute tip_speed power g =
  (Ok (lit 56 0 + lit 30 0 * l1 + lit 10 0 * l2), g).
Proof.
  intros Hhp Hl1 Hl2.
  unfold air_cooler_noise_GPSA, bind, lift, ret, truediv.
  rewrite Hhp, Hl1, Hl2. reflexivity.
Qed.

(** C5, as the code has it.  In any arithmetic, doubles included: whenever
    [hp] is not zero and [math.log10] returns on the tip speed, on
    [power/hp] and on the fan diameter, the forced-draft call ([induced]
    false) returns
    [46 + 30 log10(tip_speed) + 10 log10(power/hp) - 20 log10(fan_diameter)],
    evaluated left to right, and the induced-draft call returns that value
    with 3.0 subtracted.  Positive arguments do not suffice on doubles: see
    [air_cooler_noise_Mukherjee_counterexample]. *)
Theorem air_cooler_noise_Mukherjee_formula
  (tip_speed power fan_diameter l1 l2 l3 : F) (g : Globals F Catalogue) :
  math_log10 tip_speed = Ok l1 ->
  is_zero hp = false ->
  math_log10 (fdiv power hp) = Ok l2 ->
  math_log10 fan_diameter = Ok l3 ->
  let forced := lit 46 0 + lit 30 0 * l1 + lit 10 0 * l2 - lit 20 0 * l3 in
  air_cooler_noise_Mukherjee hp tip_speed power fan_diameter false g =
    (Ok forced, g) /\
  air_cooler_noise_Mukherjee hp tip_speed power fan_diameter true g =
    (Ok (forced - lit 3 0), g).
Proof.
  intros Hl1 Hhp Hl2 Hl3 forced.
  assert (Hforced :
    air_cooler_noise_Mukherjee hp tip_speed power fan_diameter false g =
    (Ok forced, g)).
  { unfold air_cooler_noise_Mukherjee, bind, lift, ret, truediv.
    rewrite Hl1, Hhp, Hl2, Hl3. reflexivity. }
  split; [exact Hforced |].
  rewrite air_cooler_noise_Mukherjee_induced, Hforced. reflexivity.
Qed.

(** C6.  Whenever the arithmetic is defined (no divisor is zero, the
    collaborators and the four powers return), [h_Briggs_Young] returns
    [((efficiency*A_fin + A_tube_showing)/A*h)*A_increase], where
    [fin_height = 0.5*(fin_diameter - tube_diameter)],
    [V_max = m/(A_min*rho)], [Re] and [Pr] come from the collaborators at
    [V_max] and the fluid properties,
    [Nu = 0.134*Re^0.681*Pr^(1/3)*(bare_length/fin_height)^0.2*
    (bare_length/fin_thickness)^0.1134], [h = k/tube_diameter*Nu] and
    [efficiency] is the Kern-Kraus fin efficiency at [h]. *)
Theorem h_Briggs_Young_pipeline
  (m A A_min A_increase A_fin A_tube_showing tube_diameter fin_diameter
   fin_thickness bare_length rho Cp mu k k_fin : F)
  (Re Pr p1 p2 p3 p4 efficiency : F) (g : Globals F Catalogue) :
  let fin_height := lit 5 (-1) * (fin_diameter - tube_diameter) in
  let V_max := fdiv m (A_min * rho) in
  let Nu := lit 134 (-3) * p1 * p2 * p3 * p4 in
  let h := fdiv k tube_diameter * Nu in
  is_zero (A_min * rho) = false ->
  Reynolds V_max tube_diameter rho mu = Ok Re ->
  Prandtl Cp mu k = Ok Pr ->
  float_pow Re (lit 681 (-3)) = Ok p1 ->
  float_pow Pr (fdiv (of_int 1) (lit 3 0)) = Ok p2 ->
  is_zero fin_height = false ->
  float_pow (fdiv bare_length fin_height) (lit 2 (-1)) = Ok p3 ->
  is_zero fin_thickness = false ->
  float_pow (fdiv bare_length fin_thickness) (lit 1134 (-4)) = Ok p4 ->
  is_zero tube_diameter = false ->
  fin_efficiency_Kern_Kraus tube_diameter fin_diameter fin_thickness k_fin h =
    Ok efficiency ->
  is_zero A = false ->
  h_Briggs_Young Reynolds Prandtl fin_efficiency_Kern_Kraus
    m A A_min A_increase A_fin A_tube_showing tube_diameter fin_diameter
    fin_thickness bare_length rho Cp mu k k_fin g =
  (Ok (fdiv (efficiency * A_fin + A_tube_showing) A * h * A_increase), g).
Proof.
  intros fin_height V_max Nu h HzV HRe HPr Hp1 Hp2 Hzh Hp3 Hzt Hp4 Hzd Heff HzA.
  unfold h_Briggs_Young, bind, lift, ret, truediv.
  rewrite HzV. fold V_max. rewrite HRe, HPr, Hp1, Hp2.
  fold fin_height. rewrite Hzh, Hp3, Hzt, Hp4, Hzd.
  fold Nu. fold h. rewrite Heff, HzA. reflexivity.
Qed.

(** C7.  [h_ESDU_highfin_staggered] runs the pipeline of [h_Briggs_Young]
    with the Nusselt number
    [Nu = 0.242*Re^0.658*(bare_length/fin_height)^0.297*
    (pitch_normal/pitch_parallel)^(-0.091)*Pr^(1/3)], which takes the two
    further inputs [pitch_parallel] and [pitch_normal]: whenever the
    arithmetic is defined it returns
    [((efficiency*A_fin + A_tube_showing)/A*h)*A_increase] with
    [h = k/tube_diameter*Nu]. *)
Theorem h_ESDU_highfin_staggered_pipeline
  (m A A_min A_increase A_fin A_tube_showing tube_diameter fin_diameter
   fin_thickness bare_length pitch_parallel pitch_normal rho Cp mu k k_fin : F)
  (Re Pr p1 p2 p3 p4 efficiency : F) (g : Globals F Catalogue) :
  let fin_height := lit 5 (-1) * (fin_diameter - tube_diameter) in
  let V_max := fdiv m (A_min * rho) in
  let Nu := lit 242 (-3) * p1 * p2 * p3 * p4 in
  let h := fdiv k tube_diameter * Nu in
  is_zero (A_min * rho) = false ->
  Reynolds V_max tube_diameter rho mu = Ok Re ->
  Prandtl Cp mu k = Ok Pr ->
  float_pow Re (lit 658 (-3)) = Ok p1 ->
  is_zero fin_height = false ->
  float_pow (fdiv bare_length fin_height) (lit 297 (-3)) = Ok p2 ->
  is_zero pitch_parallel = false ->
  float_pow (fdiv pitch_normal pitch_parallel) (lit (-91) (-3)) = Ok p3 ->
  float_pow Pr (fdiv (of_int 1) (lit 3 0)) = Ok p4 ->
  is_zero tube_diameter = false ->
  fin_efficiency_Kern_Kraus tube_diameter fin_diameter fin_thickness k_fin h =
    Ok efficiency ->
  is_zero A = false ->
  h_ESDU_highfin_staggered Reynolds Prandtl fin_efficiency_Kern_Kraus
    m A A_min A_increase A_fin A_tube_showing tube_diameter fin_diameter
    fin_thickness bare_length pitch_parallel pitch_normal rho Cp mu k k_fin g =
  (Ok (fdiv (efficiency * A_fin + A_tube_showing) A * h * A_increase), g).
Proof.
  intros fin_height V_max Nu h HzV HRe HPr Hp1 Hzh Hp2 Hzp Hp3 Hp4 Hzd Heff HzA.
  unfold h_ESDU_highfin_staggered, bind, lift, ret, truediv.
  rewrite HzV. fold V_max. rewrite HRe, HPr, Hp1.
  fold fin_height. rewrite Hzh, Hp2, Hzp, Hp3, Hp4, Hzd.
  fold Nu. fold h. rewrite Heff, HzA. reflexivity.
Qed.

End Formulas.

(** ** The binary64 reading: finite and infinite temperatures *)

Section Binary64Range.
Variable libm : Libm.
Variable Catalogue : Type.
Variable LMTD :
  PrimFloat.float -> PrimFloat.float -> PrimFloat.float -> PrimFloat.float ->
  result PrimFloat.float.

(** On doubles with any C library: equal finite cold-side temperatures, here
    25.0, end the call in [ZeroDivisionError] once [LMTD] has returned. *)
Lemma Ft_aircooler_binary64_zero_range (Thi Tho dTlm : PrimFloat.float)
  (Ntp rows : Z) (g : Globals PrimFloat.float Catalogue) :
  LMTD Thi Tho (b64_of_int 25) (b64_of_int 25) = Ok dTlm ->
  Ft_aircooler (H := Binary64 libm) LMTD Thi Tho (b64_of_int 25)
    (b64_of_int 25) Ntp rows g =
  (Raise ZeroDivisionError, g).
Proof.
  intros HL.
  apply (Ft_aircooler_zero_divisor (H := Binary64 libm) Catalogue LMTD
           Thi Tho (b64_of_int 25) (b64_of_int 25) Ntp rows g dTlm);
    [vm_compute; reflexivity | exact HL].
Qed.

(** Infinite temperatures compare equal and yet differ by a NaN, which is
    not zero: the division then returns a NaN instead of raising. *)
Lemma binary64_infinite_range (x : PrimFloat.float) :
  PrimFloat.eqb PrimFloat.infinity PrimFloat.infinity = true /\
  truediv (H := Binary64 libm) x
    (fsub (PyFloat := Binary64 libm) PrimFloat.infinity PrimFloat.infinity) =
  Ok (PrimFloat.div x PrimFloat.nan).
Proof.
  split; [vm_compute; reflexivity |].
  unfold truediv.
  replace (is_zero (fsub PrimFloat.infinity PrimFloat.infinity)) with false
    by (vm_compute; reflexivity).
  reflexivity.
Qed.

End Binary64Range.

(** ** The real-number reading: when the primitives are defined *)

Section RealPrimitives.
Local Open Scope R_scope.

Lemma R_is_zero_false (x : R) : x <> 0 -> R_is_zero x = false.
Proof.
  intros Hx. unfold R_is_zero.
  destruct (Req_dec_T x 0) as [E | _]; [contradiction | reflexivity].
Qed.

Lemma R_is_zero_true (x : R) : x = 0 -> R_is_zero x = true.
Proof.
  intros Hx. unfold R_is_zero.
  destruct (Req_dec_T x 0) as [_ | N]; [reflexivity | contradiction].
Qed.

Lemma R_truediv (x y : R) : y <> 0 -> truediv x y = Ok (x / y).
Proof.
  intros Hy. unfold truediv. simpl. rewrite (R_is_zero_false y Hy).
  reflexivity.
Qed.

Lemma R_log10_pos (x : R) : 0 < x -> R_log10 x = Ok (log10 x).
Proof.
  intros Hx. unfold R_log10.
  destruct (Rlt_dec 0 x) as [_ | N]; [reflexivity | contradiction].
Qed.

Lemma R_log_pos (x : R) : 0 < x -> R_log x = Ok (ln x).
Proof.
  intros Hx. unfold R_log.
  destruct (Rlt_dec 0 x) as [_ | N]; [reflexivity | contradiction].
Qed.

Lemma R_pow_pos (x y : R) : 0 < x -> y <> 0 -> R_pow x y = Ok (Rpower x y).
Proof.
  intros Hx Hy. unfold R_pow.
  destruct (Req_dec_T y 0) as [E | _]; [contradiction |].
  destruct (Req_dec_T x 0) as [E | _]; [lra |].
  destruct (Rlt_dec 0 x) as [_ | N]; [reflexivity | contradiction].
Qed.

(** A positive base to a positive whole power. *)
Lemma R_pow_nat (x : R) (n : nat) :
  0 < x -> (0 < n)%nat -> R_pow x (IZR (Z.of_nat n)) = Ok (x ^ n).
Proof.
  intros Hx Hn. rewrite R_pow_pos.
  - rewrite <- INR_IZR_INZ, Rpower_pow by exact Hx. reflexivity.
  - exact Hx.
  - rewrite <- INR_IZR_INZ. apply not_0_INR. lia.
Qed.

Lemma R_lit_neg (m : Z) (p : positive) :
  R_lit m (Zneg p) = IZR m / IZR (Z.pow_pos 10 p).
Proof. reflexivity. Qed.

Lemma R_lit_0 (m : Z) : R_lit m 0 = IZR m.
Proof. unfold R_lit. simpl. ring. Qed.

(** When the log-mean is defined: terminal differences of one sign and
    unequal. *)
Lemma LMTD_R_defined (Thi Tho Tci Tco : R) :
  Thi - Tco <> 0 ->
  0 < (Tho - Tci) / (Thi - Tco) ->
  (Tho - Tci) / (Thi - Tco) <> 1 ->
  LMTD_R Thi Tho Tci Tco =
  Ok ((Tho - Tci - (Thi - Tco)) / ln ((Tho - Tci) / (Thi - Tco))).
Proof.
  intros Hd Hq Hq1. unfold LMTD_R.
  rewrite R_truediv by exact Hd.
  rewrite R_log_pos by exact Hq.
  apply R_truediv. apply ln_neq_0; assumption.
Qed.

End RealPrimitives.

(** ** The real-number reading: fan noise *)

(** Unfolds the interface at the real numbers, operators only. *)
Ltac real_ops :=
  cbn [of_int lit fadd fsub fmul fdiv is_zero math_atan math_sin math_log10
       float_pow RealFloat].

Section RealNoise.
Variable Catalogue : Type.
Local Open Scope R_scope.

Lemma hp_R_pos : 0 < hp_R.
Proof. unfold hp_R. lra. Qed.

Lemma air_cooler_noise_GPSA_R (tip_speed power : R)
  (g : Globals R Catalogue) :
  0 < tip_speed -> 0 < power ->
  air_cooler_noise_GPSA hp_R minute_R tip_speed power g =
  (Ok (56 + 30 * log10 (tip_speed * 60 / 304.8) + 10 * log10 (power / hp_R)),
   g).
Proof.
  intros Hts Hp. pose proof hp_R_pos as Hhp.
  unfold air_cooler_noise_GPSA, bind, lift, ret.
  rewrite R_truediv by lra.
  real_ops. rewrite !R_lit_0, R_lit_neg.
  change (Z.pow_pos 10 1) with 10%Z. unfold minute_R.
  replace (3048 / 10) with 304.8 by lra.
  rewrite R_log10_pos.
  - rewrite R_log10_pos; [reflexivity |].
    apply Rdiv_lt_0_compat; assumption.
  - apply Rdiv_lt_0_compat; lra.
Qed.

End RealNoise.

(** ** Rational enclosures of the logarithm *)

Section Enclosures.
Local Open Scope R_scope.

Lemma exp_neg_sumQ_spec (n : nat) (q : Q) :
  Q2R (fst (exp_neg_sumQ n q)) = sum_f_R0 (tg_alt (exp_term (Q2R q))) n /\
  Q2R (snd (exp_neg_sumQ n q)) = tg_alt (exp_term (Q2R q)) n.
Proof.
  induction n as [| k [IHs IHt]].
  - simpl. unfold tg_alt, exp_term. simpl. split; [ | ]; unfold Q2R; simpl; lra.
  - change (exp_neg_sumQ (S k) q) with
      (let (s, t) := exp_neg_sumQ k q in
       let t' := (- (t * q / (Z.of_nat (S k) # 1)))%Q in
       (Qred (s + t'), Qred t')).
    destruct (exp_neg_sumQ k q) as [s t]. cbn [fst snd] in IHs, IHt.
    assert (Ht' : Q2R (- (t * q / (Z.of_nat (S k) # 1))) =
                  tg_alt (exp_term (Q2R q)) (S k)).
    { rewrite Q2R_opp, Q2R_div, Q2R_mult.
      - rewrite IHt. unfold tg_alt, exp_term.
        replace (Q2R (Z.of_nat (S k) # 1)) with (INR (S k)).
        + rewrite fact_simpl, mult_INR.
          simpl pow. field. split.
          * apply INR_fact_neq_0.
          * apply not_0_INR. discriminate.
        + unfold Q2R. cbn [Qnum Qden]. rewrite INR_IZR_INZ. field.
      - intros E. unfold Qeq in E. cbn [Qnum Qden] in E. lia. }
    cbv zeta. cbn [fst snd]. split.
    + rewrite (Qeq_eqR _ _ (Qred_correct _)), Q2R_plus, IHs, Ht'. reflexivity.
    + rewrite (Qeq_eqR _ _ (Qred_correct _)). exact Ht'.
Qed.

Lemma exp_term_decreasing (x : R) :
  0 <= x <= 1 -> Un_decreasing (exp_term x).
Proof.
  intros [H0 H1] n. unfold exp_term.
  rewrite fact_simpl, mult_INR. simpl pow.
  assert (Hf : 0 < INR (fact n)) by apply INR_fact_lt_0.
  assert (Hs : 1 <= INR (S n)).
  { rewrite S_INR. pose proof (pos_INR n). lra. }
  assert (Hp : 0 <= x ^ n) by (apply pow_le; exact H0).
  apply Rmult_le_reg_r with (INR (S n) * INR (fact n)).
  - apply Rmult_lt_0_compat; lra.
  - replace (x * x ^ n / (INR (S n) * INR (fact n)) *
             (INR (S n) * INR (fact n)))
      with (x * x ^ n) by (field; lra).
    replace (x ^ n / INR (fact n) * (INR (S n) * INR (fact n)))
      with (x ^ n * INR (S n)) by (field; lra).
    apply Rle_trans with (1 * x ^ n).
    + apply Rmult_le_compat_r; assumption.
    + rewrite (Rmult_comm 1). apply Rmult_le_compat_l; assumption.
Qed.

Lemma exp_neg_series (x : R) :
  Un_cv (fun N => sum_f_R0 (tg_alt (exp_term x)) N) (exp (- x)).
Proof.
  unfold exp. destruct (exist_exp (- x)) as [l Hl]. simpl.
  unfold exp_in, infinite_sum in Hl. intros eps Heps.
  destruct (Hl eps Heps) as [N HN]. exists N. intros n Hn.
  rewrite (sum_eq _ (fun i => / INR (fact i) * (- x) ^ i)).
  - apply HN. exact Hn.
  - intros i _. unfold tg_alt, exp_term.
    replace (- x) with (-1 * x) by ring. rewrite Rpow_mult_distr. 
    field. apply INR_fact_neq_0.
Qed.

Lemma exp_neg_bounds (q : Q) (N : nat) :
  0 <= Q2R q <= 1 ->
  Q2R (fst (exp_neg_sumQ (S (2 * N)) q)) <= exp (- Q2R q) <=
  Q2R (fst (exp_neg_sumQ (2 * N) q)).
Proof.
  intros Hq.
  rewrite (proj1 (exp_neg_sumQ_spec (S (2 * N)) q)).
  rewrite (proj1 (exp_neg_sumQ_spec (2 * N) q)).
  apply alternated_series_ineq.
  - apply exp_term_decreasing. exact Hq.
  - exact (cv_speed_pow_fact (Q2R q)).
  - apply exp_neg_series.
Qed.

Lemma Q2R_one : Q2R 1 = 1.
Proof. unfold Q2R. simpl. lra. Qed.

Lemma Q2R_zero : Q2R 0 = 0.
Proof. unfold Q2R. simpl. lra. Qed.

Lemma Q2R_unit_interval (q : Q) :
  Qle_bool 0 q = true -> Qle_bool q 1 = true -> 0 <= Q2R q <= 1.
Proof.
  intros H0 H1. apply Qle_bool_iff, Qle_Rle in H0, H1.
  rewrite Q2R_zero in H0. rewrite Q2R_one in H1. lra.
Qed.

Lemma Q2R_pos (q : Q) : negb (Qle_bool q 0) = true -> 0 < Q2R q.
Proof.
  intros H. apply negb_true_iff in H.
  destruct (Qlt_le_dec 0 q) as [Hlt | Hle].
  - apply Qlt_Rlt in Hlt. rewrite Q2R_zero in Hlt. exact Hlt.
  - apply Qle_bool_iff in Hle. congruence.
Qed.

Lemma ln_monotone (x y : R) : 0 < x -> x <= y -> ln x <= ln y.
Proof.
  intros Hx [Hlt | ->].
  - left. apply ln_increasing; assumption.
  - right. reflexivity.
Qed.

Lemma ln_below_sound (y hi : Q) (N : nat) :
  ln_below y hi N = true -> ln (Q2R y) <= Q2R hi.
Proof.
  unfold ln_below. intros H.
  apply andb_true_iff in H. destruct H as [H Hc].
  apply andb_true_iff in H. destruct H as [H Hy].
  apply andb_true_iff in H. destruct H as [H0 H1].
  pose proof (Q2R_unit_interval hi H0 H1) as Hhi.
  pose proof (Q2R_pos y Hy) as Hypos.
  apply Qle_bool_iff, Qle_Rle in Hc. rewrite Q2R_mult in Hc.
  rewrite Q2R_one in Hc.
  destruct (exp_neg_bounds hi N Hhi) as [_ Hup].
  set (U := Q2R (fst (exp_neg_sumQ (2 * N) hi))) in *.
  pose proof (exp_pos (- Q2R hi)) as Hen.
  pose proof (exp_pos (Q2R hi)) as Hep.
  assert (Hinv : exp (Q2R hi) * exp (- Q2R hi) = 1).
  { rewrite <- exp_plus. replace (Q2R hi + - Q2R hi) with 0 by ring.
    apply exp_0. }
  rewrite <- (ln_exp (Q2R hi)).
  apply ln_monotone; [exact Hypos |].
  apply Rmult_le_reg_r with (exp (- Q2R hi)); [exact Hen |].
  rewrite Hinv. apply Rle_trans with (Q2R y * U); [| lra].
  apply Rmult_le_compat_l; lra.
Qed.

Lemma ln_above_sound (y lo : Q) (N : nat) :
  ln_above y lo N = true -> Q2R lo <= ln (Q2R y).
Proof.
  unfold ln_above. intros H.
  apply andb_true_iff in H. destruct H as [H Hc].
  apply andb_true_iff in H. destruct H as [H Hy].
  apply andb_true_iff in H. destruct H as [H0 H1].
  pose proof (Q2R_unit_interval lo H0 H1) as Hlo.
  pose proof (Q2R_pos y Hy) as Hypos.
  apply Qle_bool_iff, Qle_Rle in Hc. rewrite Q2R_mult in Hc.
  rewrite Q2R_one in Hc.
  destruct (exp_neg_bounds lo N Hlo) as [Hdown _].
  set (L := Q2R (fst (exp_neg_sumQ (S (2 * N)) lo))) in *.
  pose proof (exp_pos (- Q2R lo)) as Hen.
  pose proof (exp_pos (Q2R lo)) as Hep.
  assert (Hinv : exp (Q2R lo) * exp (- Q2R lo) = 1).
  { rewrite <- exp_plus. replace (Q2R lo + - Q2R lo) with 0 by ring.
    apply exp_0. }
  rewrite <- (ln_exp (Q2R lo)).
  apply ln_monotone; [exact Hep |].
  apply Rmult_le_reg_r with (exp (- Q2R lo)); [exact Hen |].
  rewrite Hinv. apply Rle_trans with (Q2R y * L); [lra |].
  apply Rmult_le_compat_l; lra.
Qed.

End Enclosures.

(** ** The real-number reading: the documented values *)

Ltac eval_pow10 :=
  repeat match goal with
         | |- context [Z.pow_pos ?a ?b] =>
           let v := eval vm_compute in (Z.pow_pos a b) in
           change (Z.pow_pos a b) with v
         end.

(** Encloses [ln y] between the rationals [lo] and [hi], with 17 and 16 terms
    of the series. *)
Ltac enclose_ln y lo hi :=
  let H := fresh "Hln" in
  pose proof (conj (ln_above_sound y lo 8 ltac:(vm_compute; reflexivity))
                   (ln_below_sound y hi 8 ltac:(vm_compute; reflexivity))) as H;
  unfold Q2R in H; cbn [Qnum Qden] in H.

Section RealValues.
Variable Catalogue : Type.
Local Open Scope R_scope.

Lemma sin_cos_2atan (r : R) :
  sin (2 * atan r) = 2 * r / (1 + r * r) /\
  cos (2 * atan r) = (1 - r * r) / (1 + r * r).
Proof.
  assert (Hpos : 0 < 1 + r * r) by nra.
  assert (Hs : sqrt (1 + r²) * sqrt (1 + r²) = 1 + r * r).
  { unfold Rsqr. apply sqrt_sqrt. lra. }
  assert (Hs0 : sqrt (1 + r²) <> 0).
  { intros E. rewrite E in Hs. lra. }
  rewrite sin_2a, cos_2a, sin_atan, cos_atan.
  set (s := sqrt (1 + r²)) in *.
  rewrite <- Hs. split; field; exact Hs0.
Qed.

(** Sines of the whole multiples of an angle, from its sine and cosine. *)
Lemma sin_multiples (a S C : R) :
  sin a = S -> cos a = C ->
  sin (2 * a) = 2 * S * C /\
  sin (3 * a) = 2 * S * C * C + (C * C - S * S) * S /\
  sin (4 * a) = 2 * (2 * S * C) * (C * C - S * S).
Proof.
  intros HS HC.
  assert (H2s : sin (2 * a) = 2 * S * C) by (rewrite sin_2a, HS, HC; ring).
  assert (H2c : cos (2 * a) = C * C - S * S) by (rewrite cos_2a, HS, HC; ring).
  split; [exact H2s | split].
  - replace (3 * a) with (2 * a + a) by ring.
    rewrite sin_plus, H2s, H2c, HS, HC. ring.
  - replace (4 * a) with (2 * (2 * a)) by ring.
    rewrite sin_2a, H2s, H2c. ring.
Qed.

Lemma fold_sum_f_R0 (f : nat -> R) (m : nat) (a : R) :
  fold_left (fun acc i => acc + f i) (seq 0 (S m)) a = a + sum_f_R0 f m.
Proof.
  induction m as [| m IH].
  - reflexivity.
  - rewrite seq_S, fold_left_app, IH. simpl. ring.
Qed.

(** Over the reals the order of accumulation is immaterial: the double sum
    is the sum over [k] of the sums over [i]. *)
Lemma double_sum_nested (n m : nat) (t : nat -> nat -> R) :
  double_sum (S n) (S m) t = sum_f_R0 (fun k => sum_f_R0 (t k) m) n.
Proof.
  unfold double_sum.
  rewrite (fold_left_ext_in
             (fun acc k =>
                fold_left (fun acc' i => fadd acc' (t k i)) (seq 0 (S m)) acc)
             (fun acc k => acc + sum_f_R0 (t k) m)).
  - rewrite (fold_sum_f_R0 (fun k => sum_f_R0 (t k) m) n). real_ops. ring.
  - intros acc k _. apply (fold_sum_f_R0 (t k) m acc).
Qed.

Lemma pow_enclosure (lo x hi : R) (n : nat) :
  0 <= lo -> lo <= x -> x <= hi -> lo ^ n <= x ^ n <= hi ^ n.
Proof.
  intros H0 H1 H2. split; apply pow_incr; lra.
Qed.

Lemma ln_3_2_bounds :
  405465108108 / 10 ^ 12 <= ln (3 / 2) <= 405465108109 / 10 ^ 12.
Proof.
  enclose_ln (3 # 2)%Q (405465108108 # 1000000000000)%Q
             (405465108109 # 1000000000000)%Q.
  replace (3 * / 2) with (3 / 2) in Hln by lra. lra.
Qed.

Lemma ln_2_bounds : 6931471805 / 10 ^ 10 <= ln 2 <= 6931471806 / 10 ^ 10.
Proof.
  enclose_ln (2 # 1)%Q (6931471805 # 10000000000)%Q
             (6931471806 # 10000000000)%Q.
  replace (2 * / 1) with 2 in Hln by lra. lra.
Qed.

Lemma ln_5_2_bounds :
  9162907318 / 10 ^ 10 <= ln (5 / 2) <= 9162907319 / 10 ^ 10.
Proof.
  enclose_ln (5 # 2)%Q (9162907318 # 10000000000)%Q
             (9162907319 # 10000000000)%Q.
  replace (5 * / 2) with (5 / 2) in Hln by lra. lra.
Qed.

Lemma ln_10_bounds : 2302585092 / 10 ^ 9 <= ln 10 <= 2302585095 / 10 ^ 9.
Proof.
  pose proof ln_2_bounds. pose proof ln_5_2_bounds.
  replace 10 with (2 * (2 * (5 / 2))) by lra.
  rewrite !ln_mult by lra. lra.
Qed.

(** [Ft_aircooler] over the reals, where [1 - rlm] is positive: the powers
    are the whole powers of [1 - rlm]. *)
Lemma Ft_aircooler_R (c : Catalogue) (Thi Tho Tci Tco : R) (Ntp rows : Z)
  (t : table_id) (dTlm : R) :
  spec_table Ntp rows t ->
  LMTD_R Thi Tho Tci Tco = Ok dTlm ->
  Thi - Tci <> 0 -> Tco - Tci <> 0 ->
  0 < 1 - dTlm / (Thi - Tci) ->
  Ft_aircooler LMTD_R Thi Tho Tci Tco Ntp rows (module_globals c) =
  (Ok (1 - double_sum 4 4
         (fun k i =>
            entry (table_of t (module_globals c)) k i *
            (1 - dTlm / (Thi - Tci)) ^ (k + 1) *
            sin (IZR (2 * Z.of_nat (i + 1)) *
                 atan ((Thi - Tho) / (Tco - Tci))))),
   module_globals c).
Proof.
  intros Ht HL H1 H2 Hx.
  rewrite (Ft_aircooler_run Catalogue LMTD_R c Thi Tho Tci Tco Ntp rows t dTlm
             (atan ((Thi - Tho) / (Tco - Tci)))
             (fun k => (1 - dTlm / (Thi - Tci)) ^ (k + 1))
             (fun i => sin (IZR (2 * Z.of_nat (i + 1)) *
                            atan ((Thi - Tho) / (Tco - Tci)))));
    try assumption.
  - real_ops. rewrite R_lit_0. reflexivity.
  - apply R_is_zero_false. exact H1.
  - apply R_is_zero_false. exact H2.
  - reflexivity.
  - intros k Hk. rewrite float_succ by exact Hk. real_ops. rewrite R_lit_0.
    apply R_pow_nat; [exact Hx | lia].
  - intros i Hi. rewrite float_twice_succ by exact Hi. reflexivity.
Qed.

(** The log-mean of the documented example, and its [1 - rlm]. *)
Lemma LMTD_R_example : LMTD_R 125 45 25 95 = Ok (10 / ln (3 / 2)).
Proof.
  pose proof ln_3_2_bounds as [HLlo HLhi].
  assert (Hln : ln ((45 - 25) / (125 - 95)) = - ln (3 / 2)).
  { replace ((45 - 25) / (125 - 95)) with (/ (3 / 2)) by lra.
    apply ln_Rinv. lra. }
  rewrite LMTD_R_defined by lra. rewrite Hln.
  replace ((45 - 25 - (125 - 95)) / - ln (3 / 2)) with (10 / ln (3 / 2))
    by (field; lra).
  reflexivity.
Qed.

Lemma one_minus_rlm_example :
  75336965376225 / 10 ^ 14 <= 1 - 10 / ln (3 / 2) / (125 - 25)
                           <= 75336965376287 / 10 ^ 14.
Proof.
  pose proof ln_3_2_bounds as [HLlo HLhi].
  set (x := 1 - 10 / ln (3 / 2) / (125 - 25)).
  assert (E : (1 - x) * ln (3 / 2) = 1 / 10) by (unfold x; field; lra).
  split; nra.
Qed.

(** C8.  Over the reals, [Ft_aircooler(Thi=125, Tho=45, Tci=25, Tco=95,
    Ntp=1, rows=4)] returns a value within a relative error of 1e-9 of
    0.5505093604092708. *)
Theorem Ft_aircooler_example (c : Catalogue) :
  exists Ft : R,
    Ft_aircooler LMTD_R 125 45 25 95 1 4 (module_globals c) =
      (Ok Ft, module_globals c) /\
    Rabs (Ft - 0.5505093604092708) <= 0.5505093604092708 / 10 ^ 9.
Proof.
  pose proof one_minus_rlm_example as Hx.
  set (x := 1 - 10 / ln (3 / 2) / (125 - 25)) in Hx.
  eexists. split.
  - apply (Ft_aircooler_R c 125 45 25 95 1 4 Rows4_Pass1 _
             exact_1_4 LMTD_R_example); fold x; lra.
  - fold x.
    destruct (sin_cos_2atan ((125 - 45) / (95 - 25))) as [HS HC].
    replace (2 * ((125 - 45) / (95 - 25)) /
             (1 + (125 - 45) / (95 - 25) * ((125 - 45) / (95 - 25))))
      with (112 / 113) in HS by lra.
    replace ((1 - (125 - 45) / (95 - 25) * ((125 - 45) / (95 - 25))) /
             (1 + (125 - 45) / (95 - 25) * ((125 - 45) / (95 - 25))))
      with (- 15 / 113) in HC by lra.
    destruct (sin_multiples _ _ _ HS HC) as [H2 [H3 H4]].
    set (a := atan ((125 - 45) / (95 - 25))) in *.
    cbn [double_sum fold_left seq entry nth table_of module_globals
         _crossflow_4_rows_1_pass _crossflow_4_rows_1_pass_init
         Nat.add Z.of_nat Pos.of_succ_nat Pos.succ Z.mul Pos.mul Pos.add].
    real_ops.
    replace (2 * (2 * a)) with (4 * a) in H2 by ring.
    replace (3 * (2 * a)) with (6 * a) in H3 by ring.
    replace (4 * (2 * a)) with (8 * a) in H4 by ring.
    rewrite HS, H2, H3, H4.
    rewrite !R_lit_neg. eval_pow10.
    destruct (pow_enclosure (75336965376225 / 10 ^ 14) x
                (75336965376287 / 10 ^ 14) 1
                ltac:(lra) (proj1 Hx) (proj2 Hx))
      as [P1l P1h].
    destruct (pow_enclosure (75336965376225 / 10 ^ 14) x
                (75336965376287 / 10 ^ 14) 2
                ltac:(lra) (proj1 Hx) (proj2 Hx))
      as [P2l P2h].
    destruct (pow_enclosure (75336965376225 / 10 ^ 14) x
                (75336965376287 / 10 ^ 14) 3
                ltac:(lra) (proj1 Hx) (proj2 Hx))
      as [P3l P3h].
    destruct (pow_enclosure (75336965376225 / 10 ^ 14) x
                (75336965376287 / 10 ^ 14) 4
                ltac:(lra) (proj1 Hx) (proj2 Hx))
      as [P4l P4h].
    set (X1 := x ^ 1) in *. set (X2 := x ^ 2) in *.
    set (X3 := x ^ 3) in *. set (X4 := x ^ 4) in *.
    apply Rabs_le. split; lra.
Qed.

(** C4, as the code has it.  In any arithmetic, doubles included:
    [air_cooler_noise_GPSA] takes the tip speed to m/min (times [minute]) and
    the power to horsepower (over [hp]), and whenever [hp] is not zero and
    [math.log10] returns on both [tip_speed*minute/304.8] and [power/hp] it
    returns [56 + 30 log10(tip_speed*minute/304.8) + 10 log10(power/hp)],
    evaluated left to right.  Positive arguments do not suffice on doubles:
    see [air_cooler_noise_GPSA_counterexample].  At [tip_speed = 3177/60],
    [power = 25.1*745.7], in the real-number reading with [minute] 60 and
    [hp] 550 foot-pounds-force per second, the value is within 1e-6 of
    100.53680477959792. *)
Theorem air_cooler_noise_GPSA_formula :
  (forall (F : Type) (H : PyFloat F) (hp minute tip_speed power l1 l2 : F)
          (g : Globals F Catalogue),
     is_zero hp = false ->
     math_log10 (fdiv (tip_speed * minute) (lit 3048 (-1)))%fl = Ok l1 ->
     math_log10 (fdiv power hp) = Ok l2 ->
     air_cooler_noise_GPSA hp minute tip_speed power g =
     (Ok (lit 56 0 + lit 30 0 * l1 + lit 10 0 * l2)%fl, g)) /\
  (forall g : Globals R Catalogue,
   exists noise : R,
     air_cooler_noise_GPSA hp_R minute_R (3177 / 60) (25.1 * 745.7) g =
       (Ok noise, g) /\
     Rabs (noise - 100.53680477959792) < 1 / 10 ^ 6).
Proof.
  split.
  - intros F H hp minute tip_speed power l1 l2 g.
    apply air_cooler_noise_GPSA_run.
  - intros g. eexists. split.
    + apply air_cooler_noise_GPSA_R; lra.
    + pose proof ln_10_bounds as H10.
      enclose_ln (1059 # 1016)%Q (414517174 # 10000000000)%Q
                 (414517175 # 10000000000)%Q.
      enclose_ln (93585350000000000 # 37284993579113511)%Q
                 (9202829253 # 10000000000)%Q (9202829254 # 10000000000)%Q.
      unfold log10.
      replace (3177 / 60 * 60 / 304.8) with (10 * (1059 * / 1016)) by lra.
      replace (25.1 * 745.7 / hp_R)
        with (10 * (93585350000000000 * / 37284993579113511))
        by (unfold hp_R; lra).
      rewrite (ln_mult 10 (1059 * / 1016)) by lra.
      rewrite (ln_mult 10 (93585350000000000 * / 37284993579113511)) by lra.
      set (a := ln (1059 * / 1016)) in *.
      set (b := ln (93585350000000000 * / 37284993579113511)) in *.
      set (L := ln 10) in *.
      replace (56 + 30 * ((L + a) / L) + 10 * ((L + b) / L))
        with (96 + (30 * a + 10 * b) / L) by (field; lra).
      assert (Hz : 45368055 / 10 ^ 7 <= (30 * a + 10 * b) / L
                                     <= 45368056 / 10 ^ 7).
      { split; (apply Rmult_le_reg_r with L; [lra |]);
          replace ((30 * a + 10 * b) / L * L) with (30 * a + 10 * b)
            by (field; lra); nra. }
      apply Rabs_def1; lra.
Qed.

End RealValues.

(** ** Concrete inputs *)

Section Inputs.
Local Open Scope R_scope.

(** The documented example meets the hypotheses of [Ft_aircooler_series]. *)
Lemma Ft_aircooler_series_witness :
  exists Ft : R,
    Ft_aircooler LMTD_R 125 45 25 95 1 4 (module_globals tt) =
    (Ok Ft, module_globals tt).
Proof.
  eexists.
  apply (Ft_aircooler_series unit LMTD_R tt 125 45 25 95 1 4 Rows4_Pass1
           (10 / ln (3 / 2)) (atan ((125 - 45) / (95 - 25)))
           (fun k => (1 - 10 / ln (3 / 2) / (125 - 25)) ^ (k + 1))
           (fun i => sin (IZR (2 * Z.of_nat (i + 1)) *
                          atan ((125 - 45) / (95 - 25))))).
  - exact exact_1_4.
  - exact LMTD_R_example.
  - apply R_is_zero_false. real_ops. lra.
  - apply R_is_zero_false. real_ops. lra.
  - reflexivity.
  - intros k Hk. real_ops. rewrite R_lit_0.
    apply R_pow_nat; [| lia].
    pose proof one_minus_rlm_example. lra.
  - intros i Hi. reflexivity.
Defined.

(** A zero temperature range on the cold side: [Tco = Tci = 25]. *)
Lemma Ft_aircooler_zero_range_witness :
  exists e : exn,
    Ft_aircooler LMTD_R 125 45 25 25 1 1 (module_globals tt) =
    (Raise e, module_globals tt).
Proof.
  apply (Ft_aircooler_zero_range_raises unit LMTD_R 125 45 25 25 1 1
           (module_globals tt)).
  apply R_is_zero_true. real_ops. lra.
Defined.

(** C3 as stated fails: at [Thi = 125], [Tho = 45], [Tci = Tco = 25] the call
    returns no value at all, it raises [ZeroDivisionError]. *)
Lemma Ft_aircooler_zero_range_counterexample :
  Ft_aircooler LMTD_R 125 45 25 25 1 1 (module_globals tt) =
    (Raise ZeroDivisionError, module_globals tt) /\
  ~ (exists v : R,
       Ft_aircooler LMTD_R 125 45 25 25 1 1 (module_globals tt) =
       (Ok v, module_globals tt)).
Proof.
  assert (E : Ft_aircooler LMTD_R 125 45 25 25 1 1 (module_globals tt) =
              (Raise ZeroDivisionError, module_globals tt)).
  { apply (Ft_aircooler_zero_divisor unit LMTD_R 125 45 25 25 1 1
             (module_globals tt)
             ((45 - 25 - (125 - 25)) / ln ((45 - 25) / (125 - 25)))).
    - apply R_is_zero_true. real_ops. lra.
    - apply LMTD_R_defined; lra. }
  split; [exact E |].
  intros [v Hv]. rewrite E in Hv. discriminate Hv.
Qed.

(** The example of the GPSA handbook, with 745.7 W to the horsepower, in the
    real-number reading. *)
Lemma air_cooler_noise_GPSA_witness :
  air_cooler_noise_GPSA hp_R minute_R (3177 / 60) (25.1 * 745.7)
    (module_globals tt) =
  (Ok (R_lit 56 0 + R_lit 30 0 * log10 (3177 / 60 * minute_R / R_lit 3048 (-1))
       + R_lit 10 0 * log10 (25.1 * 745.7 / hp_R)), module_globals tt).
Proof.
  pose proof hp_R_pos as Hhp.
  apply (proj1 (air_cooler_noise_GPSA_formula unit) R RealFloat).
  - apply R_is_zero_false. lra.
  - real_ops. apply R_log10_pos. rewrite R_lit_neg. eval_pow10.
    unfold minute_R. lra.
  - real_ops. apply R_log10_pos. apply Rdiv_lt_0_compat; lra.
Defined.

(** C4 as stated fails on doubles: tip speed 1.0 and power 5e-324 are
    positive, yet [power/hp] is 0.0 and [math.log10] raises [ValueError] at
    zero.  So it is with any C library whose [log10] returns on
    [1.0*60.0/304.8], for one with the domain check of [math.log10]. *)
Lemma air_cooler_noise_GPSA_counterexample :
  PrimFloat.ltb PrimFloat.zero (b64_of_int 1) = true /\
  PrimFloat.ltb PrimFloat.zero least_positive_b64 = true /\
  PrimFloat.div least_positive_b64 hp_b64 = PrimFloat.zero /\
  (forall (libm : Libm) (l1 : PrimFloat.float),
     libm_log10 libm
       (PrimFloat.div (PrimFloat.mul (b64_of_int 1) minute_b64)
          (b64_lit 3048 (-1))) = Ok l1 ->
     libm_log10 libm PrimFloat.zero = Raise ValueError ->
     air_cooler_noise_GPSA (H := Binary64 libm) hp_b64 minute_b64
       (b64_of_int 1) least_positive_b64
       (module_globals (H := Binary64 libm) tt) =
     (Raise ValueError, module_globals (H := Binary64 libm) tt)) /\
  air_cooler_noise_GPSA (H := Binary64 (with_domain_check echo_libm))
    hp_b64 minute_b64 (b64_of_int 1) least_positive_b64
    (module_globals (H := Binary64 (with_domain_check echo_libm)) tt) =
  (Raise ValueError,
   module_globals (H := Binary64 (with_domain_check echo_libm)) tt).
Proof.
  assert (Hq : PrimFloat.div least_positive_b64 hp_b64 = PrimFloat.zero)
    by (vm_compute; reflexivity).
  assert (Hhp : b64_is_zero hp_b64 = false) by (vm_compute; reflexivity).
  assert (Hrun : forall (libm : Libm) (l1 : PrimFloat.float),
     libm_log10 libm
       (PrimFloat.div (PrimFloat.mul (b64_of_int 1) minute_b64)
          (b64_lit 3048 (-1))) = Ok l1 ->
     libm_log10 libm PrimFloat.zero = Raise ValueError ->
     air_cooler_noise_GPSA (H := Binary64 libm) hp_b64 minute_b64
       (b64_of_int 1) least_positive_b64
       (module_globals (H := Binary64 libm) tt) =
     (Raise ValueError, module_globals (H := Binary64 libm) tt)).
  { intros libm l1 Hl1 Hl0.
    unfold air_cooler_noise_GPSA, bind, lift, ret, truediv.
    cbn [is_zero fdiv fmul lit math_log10 Binary64].
    rewrite Hhp, Hq, Hl1, Hl0. reflexivity. }
  split; [vm_compute; reflexivity |].
  split; [vm_compute; reflexivity |].
  split; [exact Hq |].
  split; [exact Hrun |].
  apply (Hrun (with_domain_check echo_libm)
           (PrimFloat.div (PrimFloat.mul (b64_of_int 1) minute_b64)
              (b64_lit 3048 (-1))));
    vm_compute; reflexivity.
Qed.

(** The same fan, 4.267 m across, in the real-number reading. *)
Lemma air_cooler_noise_Mukherjee_witness :
  air_cooler_noise_Mukherjee hp_R (3177 / 60) (25.1 * 745.7) 4.267 false
    (module_globals tt) =
  (Ok (R_lit 46 0 + R_lit 30 0 * log10 (3177 / 60)
       + R_lit 10 0 * log10 (25.1 * 745.7 / hp_R)
       - R_lit 20 0 * log10 4.267), module_globals tt) /\
  air_cooler_noise_Mukherjee hp_R (3177 / 60) (25.1 * 745.7) 4.267 true
    (module_globals tt) =
  (Ok (R_lit 46 0 + R_lit 30 0 * log10 (3177 / 60)
       + R_lit 10 0 * log10 (25.1 * 745.7 / hp_R)
       - R_lit 20 0 * log10 4.267 - R_lit 3 0), module_globals tt).
Proof.
  pose proof hp_R_pos as Hhp.
  apply (air_cooler_noise_Mukherjee_formula (H := RealFloat) unit hp_R
           (3177 / 60) (25.1 * 745.7) 4.267).
  - real_ops. apply R_log10_pos. lra.
  - apply R_is_zero_false. lra.
  - real_ops. apply R_log10_pos. apply Rdiv_lt_0_compat; lra.
  - real_ops. apply R_log10_pos. lra.
Defined.

(** C5 as stated fails on doubles: tip speed 1.0, power 5e-324 and fan
    diameter 1.0 are positive, yet [power/hp] is 0.0 and [math.log10] raises
    [ValueError] at zero, for either draft. *)
Lemma air_cooler_noise_Mukherjee_counterexample :
  PrimFloat.ltb PrimFloat.zero (b64_of_int 1) = true /\
  PrimFloat.ltb PrimFloat.zero least_positive_b64 = true /\
  PrimFloat.div least_positive_b64 hp_b64 = PrimFloat.zero /\
  (forall (libm : Libm) (l1 : PrimFloat.float) (induced : bool),
     libm_log10 libm (b64_of_int 1) = Ok l1 ->
     libm_log10 libm PrimFloat.zero = Raise ValueError ->
     air_cooler_noise_Mukherjee (H := Binary64 libm) hp_b64
       (b64_of_int 1) least_positive_b64 (b64_of_int 1) induced
       (module_globals (H := Binary64 libm) tt) =
     (Raise ValueError, module_globals (H := Binary64 libm) tt)) /\
  (forall induced : bool,
     air_cooler_noise_Mukherjee (H := Binary64 (with_domain_check echo_libm))
       hp_b64 (b64_of_int 1) least_positive_b64 (b64_of_int 1) induced
       (module_globals (H := Binary64 (with_domain_check echo_libm)) tt) =
     (Raise ValueError,
      module_globals (H := Binary64 (with_domain_check echo_libm)) tt)).
Proof.
  assert (Hq : PrimFloat.div least_positive_b64 hp_b64 = PrimFloat.zero)
    by (vm_compute; reflexivity).
  assert (Hhp : b64_is_zero hp_b64 = false) by (vm_compute; reflexivity).
  assert (Hrun : forall (libm : Libm) (l1 : PrimFloat.float) (induced : bool),
     libm_log10 libm (b64_of_int 1) = Ok l1 ->
     libm_log10 libm PrimFloat.zero = Raise ValueError ->
     air_cooler_noise_Mukherjee (H := Binary64 libm) hp_b64
       (b64_of_int 1) least_positive_b64 (b64_of_int 1) induced
       (module_globals (H := Binary64 libm) tt) =
     (Raise ValueError, module_globals (H := Binary64 libm) tt)).
  { intros libm l1 induced Hl1 Hl0.
    unfold air_cooler_noise_Mukherjee, bind, lift, ret, truediv.
    cbn [is_zero fdiv math_log10 Binary64].
    rewrite Hl1, Hhp, Hq, Hl0. reflexivity. }
  split; [vm_compute; reflexivity |].
  split; [vm_compute; reflexivity |].
  split; [exact Hq |].
  split; [exact Hrun |].
  intros induced.
  apply (Hrun (with_domain_check echo_libm) (b64_of_int 1) induced);
    vm_compute; reflexivity.
Qed.


(** The documented temperatures, with [Ntp] and [rows] left out. *)
Lemma Ft_aircooler_defaults_witness :
  exists Ft : R,
    Ft_aircooler_call LMTD_R 125 45 25 95 None None (module_globals tt) =
    (Ok Ft, module_globals tt).
Proof.
  eexists.
  apply (proj1 (proj2 (proj2 (proj2
           (Ft_aircooler_defaults unit LMTD_R 125 45 25 95
              (module_globals tt)))))
           tt (10 / ln (3 / 2)) (atan ((125 - 45) / (95 - 25)))
           (fun k => (1 - 10 / ln (3 / 2) / (125 - 25)) ^ (k + 1))
           (fun i => sin (IZR (2 * Z.of_nat (i + 1)) *
                          atan ((125 - 45) / (95 - 25))))).
  - exact LMTD_R_example.
  - apply R_is_zero_false. real_ops. lra.
  - apply R_is_zero_false. real_ops. lra.
  - reflexivity.
  - intros k Hk. real_ops. rewrite R_lit_0.
    apply R_pow_nat; [| lia].
    pose proof one_minus_rlm_example. lra.
  - intros i Hi. reflexivity.
Defined.

(** Positive air properties and geometry, in the units of the docstrings:
    [m = 21.56], [A = 40], [A_min = 4], [A_increase = 17], [A_fin = 38],
    [A_tube_showing = 2], tube and fin diameters 0.0254 and 0.0572, fin
    thickness 0.0004, bare length 0.0019, [rho = 1.161], [Cp = 1007],
    [mu = 0.0000185], [k = 0.0263], [k_fin = 205]. *)
Lemma h_Briggs_Young_witness :
  exists h : R,
    h_Briggs_Young Reynolds_R Prandtl_R ideal_fin
      21.56 40 4 17 38 2 0.0254 0.0572 0.0004 0.0019
      1.161 1007 0.0000185 0.0263 205 (module_globals tt) =
    (Ok h, module_globals tt).
Proof.
  eexists.
  eapply (h_Briggs_Young_pipeline unit Reynolds_R Prandtl_R ideal_fin
            21.56 40 4 17 38 2 0.0254 0.0572 0.0004 0.0019
            1.161 1007 0.0000185 0.0263 205
            (21.56 / (4 * 1.161) * 0.0254 / (0.0000185 / 1.161))
            (1007 * 0.0000185 / 0.0263)).
  - apply R_is_zero_false. real_ops. lra.
  - unfold Reynolds_R. rewrite R_truediv by lra. real_ops.
    apply R_truediv. lra.
  - apply R_truediv. lra.
  - apply R_pow_pos; real_ops; rewrite ?R_lit_neg; eval_pow10; lra.
  - apply R_pow_pos; real_ops; rewrite ?R_lit_0; lra.
  - apply R_is_zero_false. real_ops. rewrite R_lit_neg. eval_pow10. lra.
  - apply R_pow_pos; real_ops; rewrite ?R_lit_neg; eval_pow10; lra.
  - apply R_is_zero_false. lra.
  - apply R_pow_pos; real_ops; rewrite ?R_lit_neg; eval_pow10; lra.
  - apply R_is_zero_false. lra.
  - reflexivity.
  - apply R_is_zero_false. lra.
Defined.

(** The same inputs, with pitches 0.05207 (parallel) and 0.06033 (normal). *)
Lemma h_ESDU_highfin_staggered_witness :
  exists h : R,
    h_ESDU_highfin_staggered Reynolds_R Prandtl_R ideal_fin
      21.56 40 4 17 38 2 0.0254 0.0572 0.0004 0.0019 0.05207 0.06033
      1.161 1007 0.0000185 0.0263 205 (module_globals tt) =
    (Ok h, module_globals tt).
Proof.
  eexists.
  eapply (h_ESDU_highfin_staggered_pipeline unit Reynolds_R Prandtl_R
            ideal_fin
            21.56 40 4 17 38 2 0.0254 0.0572 0.0004 0.0019 0.05207 0.06033
            1.161 1007 0.0000185 0.0263 205
            (21.56 / (4 * 1.161) * 0.0254 / (0.0000185 / 1.161))
            (1007 * 0.0000185 / 0.0263)).
  - apply R_is_zero_false. real_ops. lra.
  - unfold Reynolds_R. rewrite R_truediv by lra. real_ops.
    apply R_truediv. lra.
  - apply R_truediv. lra.
  - apply R_pow_pos; real_ops; rewrite ?R_lit_neg; eval_pow10; lra.
  - apply R_is_zero_false. real_ops. rewrite R_lit_neg. eval_pow10. lra.
  - apply R_pow_pos; real_ops; rewrite ?R_lit_neg; eval_pow10; lra.
  - apply R_is_zero_false. lra.
  - apply R_pow_pos; real_ops; rewrite ?R_lit_neg; eval_pow10; lra.
  - apply R_pow_pos; real_ops; rewrite ?R_lit_0; lra.
  - apply R_is_zero_false. lra.
  - reflexivity.
  - apply R_is_zero_false. lra.
Defined.

End Inputs.

(** * Further properties of the code *)

(** ** [Ft_aircooler]: what the configuration and the store contribute *)

Section Configuration.
Context {F : Type} `{PyFloat F}.
Variable Catalogue : Type.
Variable LMTD : F -> F -> F -> F -> result F.

Local Open Scope pyfloat_scope.

(** A run is decided by the table its configuration selects. *)
Lemma Ft_aircooler_by_table (Thi Tho Tci Tco : F) (Ntp rows Ntp' rows' : Z)
  (t : table_id) (g : Globals F Catalogue) :
  spec_table Ntp rows t -> spec_table Ntp' rows' t ->
  Ft_aircooler LMTD Thi Tho Tci Tco Ntp rows g =
  Ft_aircooler LMTD Thi Tho Tci Tco Ntp' rows' g.
Proof.
  intros Ht Ht'. unfold Ft_aircooler, bind.
  destruct (lift (LMTD Thi Tho Tci Tco) g) as [[dTlm | e] g1];
    [| reflexivity].
  destruct (lift (truediv dTlm (Thi - Tci)) g1) as [[rlm | e] g2];
    [| reflexivity].
  destruct (lift (truediv (Thi - Tho) (Tco - Tci)) g2) as [[R | e] g3];
    [| reflexivity].
  rewrite (select_coefs_spec Catalogue Ntp rows t g3 Ht).
  rewrite (select_coefs_spec Catalogue Ntp' rows' t g3 Ht').
  reflexivity.
Qed.

(** X1.  The three fallbacks of the [if]/[elif] chain, on any store and for
    any temperatures, values and exceptions alike: one tube pass with more
    than four rows runs as one pass with four rows; as many passes as rows,
    more than four, runs as four passes and four rows; and every other pair
    without a table of its own, a zero or negative count included, runs as
    two passes and four rows. *)
Theorem Ft_aircooler_fallbacks (Thi Tho Tci Tco : F)
  (g : Globals F Catalogue) :
  (forall rows : Z, (rows > 4)%Z ->
     Ft_aircooler LMTD Thi Tho Tci Tco 1 rows g =
     Ft_aircooler LMTD Thi Tho Tci Tco 1 4 g) /\
  (forall n : Z, (n > 4)%Z ->
     Ft_aircooler LMTD Thi Tho Tci Tco n n g =
     Ft_aircooler LMTD Thi Tho Tci Tco 4 4 g) /\
  (forall Ntp rows : Z,
     ~ tabulated Ntp rows ->
     ~ (Ntp = 1%Z /\ (rows > 4)%Z) ->
     ~ (Ntp = rows /\ (rows > 4)%Z) ->
     Ft_aircooler LMTD Thi Tho Tci Tco Ntp rows g =
     Ft_aircooler LMTD Thi Tho Tci Tco 2 4 g).
Proof.
  split; [| split].
  - intros rows Hr.
    apply (Ft_aircooler_by_table Thi Tho Tci Tco 1 rows 1 4 Rows4_Pass1 g).
    + apply fallback_one_pass. exact Hr.
    + apply exact_1_4.
  - intros n Hn.
    apply (Ft_aircooler_by_table Thi Tho Tci Tco n n 4 4 Rows4_Pass4 g).
    + apply fallback_square; [exact Hn | exact Hn | reflexivity].
    + apply exact_4_4.
  - intros Ntp rows Htab Hone Hsquare.
    apply (Ft_aircooler_by_table Thi Tho Tci Tco Ntp rows 2 4 Rows4_Pass2 g).
    + apply fallback_default; [exact Htab | exact Hone |].
      intros [HN [Hr E]]. apply Hsquare. split; assumption.
    + apply exact_2_4.
Qed.

(** X2.  A call reads no table but the one its configuration selects: from
    two stores that bind that one table alike, whatever they bind the other
    seven to, the outcome is the same. *)
Theorem Ft_aircooler_reads_selected_table (Thi Tho Tci Tco : F)
  (Ntp rows : Z) (t : table_id) (g g' : Globals F Catalogue) :
  spec_table Ntp rows t ->
  table_of t g = table_of t g' ->
  fst (Ft_aircooler LMTD Thi Tho Tci Tco Ntp rows g) =
  fst (Ft_aircooler LMTD Thi Tho Tci Tco Ntp rows g').
Proof.
  intros Ht Hsame.
  rewrite (Ft_aircooler_after_selection Catalogue LMTD Thi Tho Tci Tco Ntp
             rows t g Ht).
  rewrite (Ft_aircooler_after_selection Catalogue LMTD Thi Tho Tci Tco Ntp
             rows t g' Ht).
  rewrite Hsame.
  apply (blind_bind (lift (LMTD Thi Tho Tci Tco))); [apply blind_lift |].
  intros dTlm. apply blind_bind; [apply blind_lift |].
  intros rlm. apply blind_bind; [apply blind_lift |].
  intros R. apply blind_series_of.
Qed.

End Configuration.

(** ** Zero divisors *)

Section ZeroDivisors.
Context {F : Type} `{PyFloat F}.
Variable Catalogue : Type.
Variable LMTD : F -> F -> F -> F -> result F.
Variable Reynolds : F -> F -> F -> F -> result F.
Variable Prandtl : F -> F -> F -> result F.
Variable fin_efficiency_Kern_Kraus : F -> F -> F -> F -> F -> result F.

Local Open Scope pyfloat_scope.

Lemma truediv_zero (x y : F) :
  is_zero y = true -> truediv x y = Raise ZeroDivisionError.
Proof. intros Hy. unfold truediv. rewrite Hy. reflexivity. Qed.

(** X3.  Equal inlet temperatures: when [Thi - Tci] is zero the division of
    line 166 is never survived.  The call raises [ZeroDivisionError] as soon
    as [LMTD] has returned, before any table is read and whatever [Tco],
    [Tho], [Ntp] and [rows] are; if [LMTD] raises, its exception is the
    outcome. *)
Theorem Ft_aircooler_equal_inlets_raise (Thi Tho Tci Tco : F) (Ntp rows : Z)
  (g : Globals F Catalogue) :
  is_zero (Thi - Tci) = true ->
  (forall dTlm, LMTD Thi Tho Tci Tco = Ok dTlm ->
     Ft_aircooler LMTD Thi Tho Tci Tco Ntp rows g =
     (Raise ZeroDivisionError, g)) /\
  (forall e, LMTD Thi Tho Tci Tco = Raise e ->
     Ft_aircooler LMTD Thi Tho Tci Tco Ntp rows g = (Raise e, g)).
Proof.
  intros Hz. split.
  - intros dTlm HL. unfold Ft_aircooler, bind, lift. rewrite HL.
    rewrite (truediv_zero dTlm (Thi - Tci) Hz). reflexivity.
  - intros e HL. unfold Ft_aircooler, bind, lift. rewrite HL. reflexivity.
Qed.

(** X4.  [h_Briggs_Young] returns no coefficient when one of the four
    divisors it divides floats by is zero: the flow term [A_min*rho], the fin
    height [0.5*(fin_diameter - tube_diameter)] (a tube without fins), the
    fin thickness or the tube diameter.  The call ends in an exception,
    whatever the collaborators return.  The last division, by the area [A],
    is left out: its dividend carries the fin efficiency, whose type is the
    collaborator's. *)
Theorem h_Briggs_Young_zero_divisor
  (m A A_min A_increase A_fin A_tube_showing tube_diameter fin_diameter
   fin_thickness bare_length rho Cp mu k k_fin : F)
  (g : Globals F Catalogue) :
  is_zero (A_min * rho) = true \/
  is_zero (lit 5 (-1) * (fin_diameter - tube_diameter)) = true \/
  is_zero fin_thickness = true \/
  is_zero tube_diameter = true ->
  exists e : exn,
    h_Briggs_Young Reynolds Prandtl fin_efficiency_Kern_Kraus
      m A A_min A_increase A_fin A_tube_showing tube_diameter fin_diameter
      fin_thickness bare_length rho Cp mu k k_fin g = (Raise e, g).
Proof.
  intros Hz. unfold h_Briggs_Young, bind, lift, ret.
  destruct (truediv m (A_min * rho)) as [V_max | e] eqn:EV;
    [| exists e; reflexivity].
  destruct (Reynolds V_max tube_diameter rho mu) as [Re | e];
    [| exists e; reflexivity].
  destruct (Prandtl Cp mu k) as [Pr | e]; [| exists e; reflexivity].
  destruct (float_pow Re (lit 681 (-3))) as [p1 | e];
    [| exists e; reflexivity].
  destruct (float_pow Pr (fdiv (of_int 1) (lit 3 0))) as [p2 | e];
    [| exists e; reflexivity].
  destruct (truediv bare_length
              (lit 5 (-1) * (fin_diameter - tube_diameter)))
    as [q3 | e] eqn:E3; [| exists e; reflexivity].
  destruct (float_pow q3 (lit 2 (-1))) as [p3 | e];
    [| exists e; reflexivity].
  destruct (truediv bare_length fin_thickness) as [q4 | e] eqn:E4;
    [| exists e; reflexivity].
  destruct (float_pow q4 (lit 1134 (-4))) as [p4 | e];
    [| exists e; reflexivity].
  destruct (truediv k tube_diameter) as [q | e] eqn:Ed;
    [| exists e; reflexivity].
  exfalso.
  destruct Hz as [Hz | [Hz | [Hz | Hz]]].
  - rewrite (truediv_zero _ _ Hz) in EV. discriminate EV.
  - rewrite (truediv_zero _ _ Hz) in E3. discriminate E3.
  - rewrite (truediv_zero _ _ Hz) in E4. discriminate E4.
  - rewrite (truediv_zero _ _ Hz) in Ed. discriminate Ed.
Qed.

(** X5.  [h_ESDU_highfin_staggered] returns no coefficient when one of the
    four divisors it divides floats by is zero: [A_min*rho], the fin height,
    the parallel pitch or the tube diameter.  The call ends in an exception,
    whatever the collaborators return.  The fin thickness is no divisor of
    this function, and the last division, by [A], is left out as for
    [h_Briggs_Young]. *)
Theorem h_ESDU_highfin_staggered_zero_divisor
  (m A A_min A_increase A_fin A_tube_showing tube_diameter fin_diameter
   fin_thickness bare_length pitch_parallel pitch_normal rho Cp mu k k_fin : F)
  (g : Globals F Catalogue) :
  is_zero (A_min * rho) = true \/
  is_zero (lit 5 (-1) * (fin_diameter - tube_diameter)) = true \/
  is_zero pitch_parallel = true \/
  is_zero tube_diameter = true ->
  exists e : exn,
    h_ESDU_highfin_staggered Reynolds Prandtl fin_efficiency_Kern_Kraus
      m A A_min A_increase A_fin A_tube_showing tube_diameter fin_diameter
      fin_thickness bare_length pitch_parallel pitch_normal rho Cp mu k
      k_fin g = (Raise e, g).
Proof.
  intros Hz. unfold h_ESDU_highfin_staggered, bind, lift, ret.
  destruct (truediv m (A_min * rho)) as [V_max | e] eqn:EV;
    [| exists e; reflexivity].
  destruct (Reynolds V_max tube_diameter rho mu) as [Re | e];
    [| exists e; reflexivity].
  destruct (Prandtl Cp mu k) as [Pr | e]; [| exists e; reflexivity].
  destruct (float_pow Re (lit 658 (-3))) as [p1 | e];
    [| exists e; reflexivity].
  destruct (truediv bare_length
              (lit 5 (-1) * (fin_diameter - tube_diameter)))
    as [q2 | e] eqn:E2; [| exists e; reflexivity].
  destruct (float_pow q2 (lit 297 (-3))) as [p2 | e];
    [| exists e; reflexivity].
  destruct (truediv pitch_normal pitch_parallel) as [q3 | e] eqn:E3;
    [| exists e; reflexivity].
  destruct (float_pow q3 (lit (-91) (-3))) as [p3 | e];
    [| exists e; reflexivity].
  destruct (float_pow Pr (fdiv (of_int 1) (lit 3 0))) as [p4 | e];
    [| exists e; reflexivity].
  destruct (truediv k tube_diameter) as [q | e] eqn:Ed;
    [| exists e; reflexivity].
  exfalso.
  destruct Hz as [Hz | [Hz | [Hz | Hz]]].
  - rewrite (truediv_zero _ _ Hz) in EV. discriminate EV.
  - rewrite (truediv_zero _ _ Hz) in E2. discriminate E2.
  - rewrite (truediv_zero _ _ Hz) in E3. discriminate E3.
  - rewrite (truediv_zero _ _ Hz) in Ed. discriminate Ed.
Qed.

End ZeroDivisors.

(** ** Where the exceptions of [Ft_aircooler] come from *)

Section Exceptions.
Context {F : Type} `{PyFloat F}.
Variable Catalogue : Type.
Variable LMTD : F -> F -> F -> F -> result F.

Local Open Scope pyfloat_scope.

(** A loop that raises ran a body that raised. *)
Lemma for__raise {S X A : Type} (xs : list X) (body : X -> A -> M S A)
  (acc : A) (s : S) (e : exn) (s' : S) :
  for_ xs body acc s = (Raise e, s') ->
  exists x acc0 s0, In x xs /\ body x acc0 s0 = (Raise e, s').
Proof.
  revert acc s. induction xs as [| x xs IH]; intros acc s Hrun.
  - discriminate Hrun.
  - simpl in Hrun. unfold bind in Hrun.
    destruct (body x acc s) as [[acc1 | e1] s1] eqn:Ebody.
    + destruct (IH acc1 s1 Hrun) as [y [acc0 [s0 [Hin Hy]]]].
      exists y, acc0, s0. split; [right; exact Hin | exact Hy].
    + exists x, acc, s. split; [left; reflexivity |].
      rewrite Ebody. exact Hrun.
Qed.

(** The series over a square table raises only what [atan], [**] or [sin]
    raised: the two lookups are in range. *)
Lemma series_of_raise (n : nat) (coefs : list (list F)) (rlm R : F)
  (g : Globals F Catalogue) (e : exn) (g' : Globals F Catalogue) :
  shape n n coefs ->
  series_of Catalogue coefs rlm R g = (Raise e, g') ->
  math_atan R = Raise e \/
  (exists k, (k < n)%nat /\
     float_pow (lit 1 0 - rlm) (of_int (Z.of_nat k) + lit 1 0) = Raise e) \/
  (exists atanR i, math_atan R = Ok atanR /\ (i < n)%nat /\
     math_sin (lit 2 0 * (of_int (Z.of_nat i) + lit 1 0) * atanR) = Raise e).
Proof.
  intros Hshape Hrun. pose proof Hshape as [Hlen _].
  unfold series_of in Hrun. unfold bind at 1, lift at 1 in Hrun.
  destruct (math_atan R) as [atanR | e0] eqn:Eatan.
  - unfold bind at 1 in Hrun. rewrite Hlen in Hrun.
    match type of Hrun with
    | match ?loop with _ => _ end = _ =>
        destruct loop as [[tot | e1] g1] eqn:Eloop
    end; [discriminate Hrun |].
    injection Hrun as -> ->.
    destruct (for__raise _ _ _ _ _ _ Eloop) as [k [acc0 [g0 [Hk Hbody]]]].
    apply in_seq in Hk.
    unfold bind at 1, lift at 1 in Hbody.
    destruct (float_pow (lit 1 0 - rlm) (of_int (Z.of_nat k) + lit 1 0))
      as [x0 | e2] eqn:Epow.
    + right. right. exists atanR.
      destruct (for__raise _ _ _ _ _ _ Hbody) as [i [acc1 [g2 [Hi Hin]]]].
      apply in_seq in Hi. exists i.
      split; [reflexivity | split; [lia |]].
      destruct (shape_entry n n coefs k i Hshape) as [row [Hrow Hc]];
        [lia | lia |].
      unfold bind, lift, ret in Hin. rewrite Hrow, Hc in Hin.
      destruct (math_sin (lit 2 0 * (of_int (Z.of_nat i) + lit 1 0) * atanR))
        as [sn | e3]; [discriminate Hin |].
      injection Hin as -> _. reflexivity.
    + right. left. exists k. split; [lia |].
      injection Hbody as -> _. exact Epow.
  - left. injection Hrun as -> _. reflexivity.
Qed.

(** X17.  Where an exception of [Ft_aircooler] comes from, on the imported
    module, in any arithmetic and for every configuration: it is the one
    [LMTD] raised, the [ZeroDivisionError] of one of the two divisions, or
    the one [math.atan], [**] or [math.sin] raised at an argument of the
    formula.  The lookups [coefs[k][i]] raise nothing, the tables being four
    by four; and the store is handed on as it was. *)
Theorem Ft_aircooler_exceptions (c : Catalogue) (Thi Tho Tci Tco : F)
  (Ntp rows : Z) (e : exn) (g' : Globals F Catalogue) :
  Ft_aircooler LMTD Thi Tho Tci Tco Ntp rows (module_globals c) =
    (Raise e, g') ->
  g' = module_globals c /\
  (LMTD Thi Tho Tci Tco = Raise e \/
   (e = ZeroDivisionError /\
    (is_zero (Thi - Tci) = true \/ is_zero (Tco - Tci) = true)) \/
   math_atan (fdiv (Thi - Tho) (Tco - Tci)) = Raise e \/
   (exists dTlm k, LMTD Thi Tho Tci Tco = Ok dTlm /\ (k < 4)%nat /\
      float_pow (lit 1 0 - fdiv dTlm (Thi - Tci))
        (of_int (Z.of_nat k) + lit 1 0) = Raise e) \/
   (exists atanR i,
      math_atan (fdiv (Thi - Tho) (Tco - Tci)) = Ok atanR /\ (i < 4)%nat /\
      math_sin (lit 2 0 * (of_int (Z.of_nat i) + lit 1 0) * atanR) =
        Raise e)).
Proof.
  intros Hrun.
  destruct (spec_table_total Ntp rows) as [t Ht].
  rewrite (Ft_aircooler_after_selection Catalogue LMTD Thi Tho Tci Tco Ntp
             rows t (module_globals c) Ht) in Hrun.
  unfold bind at 1, lift at 1 in Hrun.
  destruct (LMTD Thi Tho Tci Tco) as [dTlm | e0] eqn:EL;
    [| injection Hrun as -> <-; split; [reflexivity | left; reflexivity]].
  unfold bind at 1, lift at 1, truediv at 1 in Hrun.
  destruct (is_zero (Thi - Tci)) eqn:Ez1;
    [injection Hrun as <- <-; split;
       [reflexivity | right; left; split; [reflexivity | left; reflexivity]]
    |].
  unfold bind at 1, lift at 1, truediv at 1 in Hrun.
  destruct (is_zero (Tco - Tci)) eqn:Ez2;
    [injection Hrun as <- <-; split;
       [reflexivity | right; left; split; [reflexivity | right; reflexivity]]
    |].
  assert (Hstore : g' = module_globals c).
  { pose proof (proj1 (blind_series_of
                         (table_of t (module_globals c))
                         (fdiv dTlm (Thi - Tci))
                         (fdiv (Thi - Tho) (Tco - Tci)))
                  (module_globals c)) as Hs.
    rewrite Hrun in Hs. exact Hs. }
  split; [exact Hstore |].
  destruct (series_of_raise 4 _ _ _ _ _ _ (module_tables_shape Catalogue c t)
              Hrun)
    as [Hatan | [[k [Hk Hpow]] | [atanR [i [Hatan [Hi Hsin]]]]]].
  - right. right. left. exact Hatan.
  - right. right. right. left. exists dTlm, k.
    split; [reflexivity | split; assumption].
  - right. right. right. right. exists atanR, i.
    split; [exact Hatan | split; assumption].
Qed.

End Exceptions.

(** ** Doubles: equal finite temperatures *)

Section Binary64Finite.
Variable libm : Libm.
Variable Catalogue : Type.
Variable LMTD :
  PrimFloat.float -> PrimFloat.float -> PrimFloat.float -> PrimFloat.float ->
  result PrimFloat.float.

(** A finite double minus itself is a zero: the exact difference is 0 and
    needs no rounding. *)
Lemma b64_sub_self (x : PrimFloat.float) :
  PrimFloat.is_finite x = true ->
  b64_is_zero (PrimFloat.sub x x) = true.
Proof.
  unfold PrimFloat.is_finite, PrimFloat.is_nan, PrimFloat.is_infinity,
    b64_is_zero.
  rewrite !FloatAxioms.eqb_spec, FloatAxioms.abs_spec, FloatAxioms.sub_spec.
  replace (FloatOps.Prim2SF PrimFloat.infinity)
    with (SpecFloat.S754_infinity false) by (vm_compute; reflexivity).
  replace (FloatOps.Prim2SF PrimFloat.zero)
    with (SpecFloat.S754_zero false) by (vm_compute; reflexivity).
  destruct (FloatOps.Prim2SF x) as [s | s | | s m e].
  - intros _. destruct s; reflexivity.
  - destruct s; intros Hf; discriminate Hf.
  - intros Hf; discriminate Hf.
  - intros _. unfold FloatAxioms.SF64sub, SpecFloat.SFsub.
    rewrite Z.min_id. unfold SpecFloat.shl_align.
    assert (D : forall z : Z, IntDef.Z.sub z z = 0%Z) by exact Z.sub_diag.
    rewrite (D e). cbn [fst]. rewrite D. reflexivity.
Qed.

(** X16.  On IEEE doubles, with any C library and for every configuration:
    when the cold stream leaves at the finite temperature [T] it entered
    with, or both streams enter at the same finite temperature [T], a call
    whose [LMTD] has returned raises [ZeroDivisionError].  Finiteness is
    needed: an infinity minus itself is a NaN, which is no zero. *)
Theorem Ft_aircooler_binary64_equal_temperatures (T : PrimFloat.float)
  (Ntp rows : Z) (g : Globals PrimFloat.float Catalogue) :
  PrimFloat.is_finite T = true ->
  (forall Thi Tho dTlm : PrimFloat.float,
     LMTD Thi Tho T T = Ok dTlm ->
     Ft_aircooler (H := Binary64 libm) LMTD Thi Tho T T Ntp rows g =
     (Raise ZeroDivisionError, g)) /\
  (forall Tho Tco dTlm : PrimFloat.float,
     LMTD T Tho T Tco = Ok dTlm ->
     Ft_aircooler (H := Binary64 libm) LMTD T Tho T Tco Ntp rows g =
     (Raise ZeroDivisionError, g)).
Proof.
  intros HT. pose proof (b64_sub_self T HT) as Hz. split.
  - intros Thi Tho dTlm HL.
    exact (Ft_aircooler_zero_divisor (H := Binary64 libm) Catalogue LMTD
             Thi Tho T T Ntp rows g dTlm Hz HL).
  - intros Tho Tco dTlm HL. unfold Ft_aircooler, bind, lift. rewrite HL.
    rewrite (truediv_zero (H := Binary64 libm) dTlm
               (fsub (PyFloat := Binary64 libm) T T) Hz).
    reflexivity.
Qed.

(** Zeros and finite doubles, by their specification. *)
Lemma b64_is_zero_view (x : PrimFloat.float) :
  b64_is_zero x = true <-> exists s, FloatOps.Prim2SF x = SpecFloat.S754_zero s.
Proof.
  unfold b64_is_zero. rewrite FloatAxioms.eqb_spec.
  replace (FloatOps.Prim2SF PrimFloat.zero)
    with (SpecFloat.S754_zero false) by (vm_compute; reflexivity).
  destruct (FloatOps.Prim2SF x) as [s | s | | s m e]; cbn; split;
    try (intros Hx; discriminate Hx);
    try (intros [s' Hx]; discriminate Hx).
  - intros _. exists s. reflexivity.
  - reflexivity.
  - destruct s; intros Hx; discriminate Hx.
  - destruct s; intros Hx; discriminate Hx.
Qed.

Lemma b64_is_finite_view (x : PrimFloat.float) :
  PrimFloat.is_finite x = true ->
  (exists s, FloatOps.Prim2SF x = SpecFloat.S754_zero s) \/
  (exists s m e, FloatOps.Prim2SF x = SpecFloat.S754_finite s m e).
Proof.
  unfold PrimFloat.is_finite, PrimFloat.is_nan, PrimFloat.is_infinity.
  rewrite !FloatAxioms.eqb_spec, FloatAxioms.abs_spec.
  replace (FloatOps.Prim2SF PrimFloat.infinity)
    with (SpecFloat.S754_infinity false) by (vm_compute; reflexivity).
  destruct (FloatOps.Prim2SF x) as [s | s | | s m e].
  - intros _. left. exists s. reflexivity.
  - destruct s; intros Hf; discriminate Hf.
  - intros Hf; discriminate Hf.
  - intros _. right. exists s, m, e. reflexivity.
Qed.

Lemma b64_mul_zero (p z : PrimFloat.float) :
  PrimFloat.is_finite p = true -> b64_is_zero z = true ->
  b64_is_zero (PrimFloat.mul p z) = true.
Proof.
  intros Hp Hz. apply b64_is_zero_view in Hz. destruct Hz as [sz Hz].
  apply b64_is_zero_view. rewrite FloatAxioms.mul_spec, Hz.
  destruct (b64_is_finite_view p Hp) as [[s Hs] | [s [m [e Hs]]]];
    rewrite Hs; eexists; reflexivity.
Qed.

Lemma b64_add_zero (acc z : PrimFloat.float) :
  acc = PrimFloat.zero -> b64_is_zero z = true ->
  PrimFloat.add acc z = PrimFloat.zero.
Proof.
  intros -> Hz. apply b64_is_zero_view in Hz. destruct Hz as [sz Hz].
  apply FloatAxioms.Prim2SF_inj. rewrite FloatAxioms.add_spec, Hz.
  replace (FloatOps.Prim2SF PrimFloat.zero)
    with (SpecFloat.S754_zero false) by (vm_compute; reflexivity).
  destruct sz; reflexivity.
Qed.

Lemma b64_zero_div (z d : PrimFloat.float) :
  b64_is_zero z = true -> b64_is_zero d = false ->
  PrimFloat.is_nan d = false ->
  b64_is_zero (PrimFloat.div z d) = true.
Proof.
  intros Hz Hd Hn. apply b64_is_zero_view in Hz. destruct Hz as [sz Hz].
  apply b64_is_zero_view. rewrite FloatAxioms.div_spec, Hz.
  unfold PrimFloat.is_nan in Hn. rewrite FloatAxioms.eqb_spec in Hn.
  destruct (FloatOps.Prim2SF d) as [s | s | | s m e] eqn:Ed.
  - exfalso. assert (Hd' : b64_is_zero d = true)
      by (apply b64_is_zero_view; exists s; exact Ed).
    rewrite Hd' in Hd. discriminate Hd.
  - eexists. reflexivity.
  - discriminate Hn.
  - eexists. reflexivity.
Qed.

Lemma b64_one_minus_zero :
  PrimFloat.sub (b64_lit 1 0) PrimFloat.zero = PrimFloat.one.
Proof. vm_compute. reflexivity. Qed.

Lemma b64_fold_zero {X : Type} (f : X -> PrimFloat.float) (l : list X) :
  (forall i, In i l -> b64_is_zero (f i) = true) ->
  forall acc, acc = PrimFloat.zero ->
  fold_left (fun a i => PrimFloat.add a (f i)) l acc = PrimFloat.zero.
Proof.
  induction l as [| i l IH]; intros Hf acc Hacc.
  - exact Hacc.
  - simpl. apply IH.
    + intros j Hj. apply Hf. right. exact Hj.
    + apply b64_add_zero; [exact Hacc | apply Hf; left; reflexivity].
Qed.

Lemma b64_double_sum_zero (n m : nat) (t : nat -> nat -> PrimFloat.float) :
  (forall k i, (k < n)%nat -> (i < m)%nat -> b64_is_zero (t k i) = true) ->
  double_sum (H := Binary64 libm) n m t = PrimFloat.zero.
Proof.
  intros Ht. unfold double_sum.
  assert (Hrows : forall l, (forall k, In k l -> (k < n)%nat) ->
            forall acc, acc = PrimFloat.zero ->
            fold_left
              (fun acc k =>
                 fold_left
                   (fun acc' i => fadd (PyFloat := Binary64 libm) acc' (t k i))
                   (seq 0 m) acc) l acc = PrimFloat.zero).
  { induction l as [| k l IH]; intros Hl acc Hacc.
    - exact Hacc.
    - simpl. apply IH.
      + intros j Hj. apply Hl. right. exact Hj.
      + apply (b64_fold_zero (t k)); [| exact Hacc].
        intros i Hi. apply in_seq in Hi. apply Ht; [| lia].
        apply Hl. left. reflexivity. }
  apply Hrows.
  - intros k Hk. apply in_seq in Hk. lia.
  - vm_compute. reflexivity.
Qed.

(** X18.  On IEEE doubles, with a C library whose [atan] and [sin] return a
    zero at a zero, and for every configuration of the imported module: a
    hot stream that leaves at its finite inlet temperature ([Tho == Thi], a
    condensing vapour) gets exactly 1.0, whenever [LMTD] returns, neither
    temperature difference is zero, [Tco - Tci] is no NaN, the four powers
    return and their products with the coefficients are finite.  Every term
    of the series is then a zero, and a sum of zeros from 0 is +0.0. *)
Theorem Ft_aircooler_binary64_isothermal_hot_side (c : Catalogue)
  (T Tci Tco dTlm : PrimFloat.float) (Ntp rows : Z) (t : table_id)
  (x : nat -> PrimFloat.float) :
  (forall z, b64_is_zero z = true -> libm_atan libm z = Ok z) ->
  (forall z, b64_is_zero z = true -> libm_sin libm z = Ok z) ->
  spec_table Ntp rows t ->
  PrimFloat.is_finite T = true ->
  LMTD T T Tci Tco = Ok dTlm ->
  b64_is_zero (PrimFloat.sub T Tci) = false ->
  b64_is_zero (PrimFloat.sub Tco Tci) = false ->
  PrimFloat.is_nan (PrimFloat.sub Tco Tci) = false ->
  (forall k, (k < 4)%nat ->
     libm_pow libm
       (PrimFloat.sub (b64_lit 1 0) (PrimFloat.div dTlm (PrimFloat.sub T Tci)))
       (PrimFloat.add (b64_of_int (Z.of_nat k)) (b64_lit 1 0)) = Ok (x k)) ->
  (forall k i, (k < 4)%nat -> (i < 4)%nat ->
     PrimFloat.is_finite
       (PrimFloat.mul
          (entry (H := Binary64 libm)
             (table_of t (module_globals (H := Binary64 libm) c)) k i)
          (x k)) = true) ->
  Ft_aircooler (H := Binary64 libm) LMTD T T Tci Tco Ntp rows
    (module_globals (H := Binary64 libm) c) =
  (Ok PrimFloat.one, module_globals (H := Binary64 libm) c).
Proof.
  intros Hatan Hsin Ht HT HL Hz1 Hz2 Hnan Hpow Hfin.
  set (R := PrimFloat.div (PrimFloat.sub T T) (PrimFloat.sub Tco Tci)).
  assert (HR : b64_is_zero R = true).
  { apply b64_zero_div;
      [apply b64_sub_self; exact HT | exact Hz2 | exact Hnan]. }
  set (s := fun i : nat =>
         PrimFloat.mul
           (PrimFloat.mul (b64_lit 2 0)
              (PrimFloat.add (b64_of_int (Z.of_nat i)) (b64_lit 1 0))) R).
  assert (Hs : forall i, (i < 4)%nat -> b64_is_zero (s i) = true).
  { intros i Hi. apply b64_mul_zero; [| exact HR].
    destruct i as [| [| [| [| i]]]]; try lia; vm_compute; reflexivity. }
  rewrite (Ft_aircooler_run (H := Binary64 libm) Catalogue LMTD c T T Tci Tco
             Ntp rows t dTlm R x s Ht HL Hz1 Hz2).
  - rewrite b64_double_sum_zero.
    + rewrite <- b64_one_minus_zero. reflexivity.
    + intros k i Hk Hi. apply b64_mul_zero; [| apply Hs; exact Hi].
      apply Hfin; assumption.
  - apply Hatan. exact HR.
  - exact Hpow.
  - intros i Hi. apply Hsin. apply (Hs i Hi).
Qed.

End Binary64Finite.

(** ** Concrete inputs of the further properties *)

Section FurtherInputs.
Local Open Scope R_scope.

(** Nine rows in one pass read the four-row table only: emptying the one-row
    table does not change the outcome. *)
Lemma Ft_aircooler_reads_selected_table_witness :
  fst (Ft_aircooler LMTD_R 125 45 25 95 1 9 (module_globals tt)) =
  fst (Ft_aircooler LMTD_R 125 45 25 95 1 9 emptied_one_row).
Proof.
  apply (Ft_aircooler_reads_selected_table unit LMTD_R 125 45 25 95 1 9
           Rows4_Pass1 (module_globals tt) emptied_one_row).
  - apply fallback_one_pass. reflexivity.
  - reflexivity.
Defined.

(** Both inlets at 25 degrees, with a defined mean temperature
    difference. *)
Lemma Ft_aircooler_equal_inlets_witness :
  Ft_aircooler LMTD_R 25 15 25 45 1 4 (module_globals tt) =
  (Raise ZeroDivisionError, module_globals tt).
Proof.
  refine (proj1 (Ft_aircooler_equal_inlets_raise unit LMTD_R 25 15 25 45 1 4
                   (module_globals tt) _)
            ((15 - 25 - (25 - 45)) / ln ((15 - 25) / (25 - 45))) _).
  - apply R_is_zero_true. real_ops. lra.
  - apply LMTD_R_defined; lra.
Defined.

(** The tube of [h_Briggs_Young_witness] with fins of no thickness. *)
Lemma h_Briggs_Young_zero_divisor_witness :
  exists e : exn,
    h_Briggs_Young Reynolds_R Prandtl_R ideal_fin
      21.56 40 4 17 38 2 0.0254 0.0572 0 0.0019
      1.161 1007 0.0000185 0.0263 205 (module_globals tt) =
    (Raise e, module_globals tt).
Proof.
  apply (h_Briggs_Young_zero_divisor unit Reynolds_R Prandtl_R ideal_fin).
  right; right; left. apply R_is_zero_true. reflexivity.
Defined.

(** The bundle of [h_ESDU_highfin_staggered_witness] with a parallel pitch of
    zero. *)
Lemma h_ESDU_highfin_staggered_zero_divisor_witness :
  exists e : exn,
    h_ESDU_highfin_staggered Reynolds_R Prandtl_R ideal_fin
      21.56 40 4 17 38 2 0.0254 0.0572 0.0004 0.0019 0 0.06033
      1.161 1007 0.0000185 0.0263 205 (module_globals tt) =
    (Raise e, module_globals tt).
Proof.
  apply (h_ESDU_highfin_staggered_zero_divisor unit Reynolds_R Prandtl_R
           ideal_fin).
  right; right; left. apply R_is_zero_true. reflexivity.
Defined.

(** Air that enters and leaves at 25 degrees: the call raises the
    [ZeroDivisionError] of the second division. *)
Lemma Ft_aircooler_exceptions_witness :
  module_globals tt = module_globals tt /\
  (LMTD_R 125 45 25 25 = Raise ZeroDivisionError \/
   (ZeroDivisionError = ZeroDivisionError /\
    (is_zero (125 - 25)%fl = true \/ is_zero (25 - 25)%fl = true)) \/
   math_atan (fdiv (125 - 45)%fl (25 - 25)%fl) = Raise ZeroDivisionError \/
   (exists (dTlm : R) (k : nat),
      LMTD_R 125 45 25 25 = Ok dTlm /\ (k < 4)%nat /\
      float_pow (lit 1 0 - fdiv dTlm (125 - 25))%fl
        (of_int (Z.of_nat k) + lit 1 0)%fl = Raise ZeroDivisionError) \/
   (exists (atanR : R) (i : nat),
      math_atan (fdiv (125 - 45)%fl (25 - 25)%fl) = Ok atanR /\
      (i < 4)%nat /\
      math_sin (lit 2 0 * (of_int (Z.of_nat i) + lit 1 0) * atanR)%fl =
        Raise ZeroDivisionError)).
Proof.
  apply (Ft_aircooler_exceptions unit LMTD_R tt 125 45 25 25 1 1
           ZeroDivisionError (module_globals tt)).
  apply (Ft_aircooler_zero_divisor unit LMTD_R 125 45 25 25 1 1
           (module_globals tt)
           ((45 - 25 - (125 - 25)) / ln ((45 - 25) / (125 - 25)))).
  - apply R_is_zero_true. real_ops. lra.
  - apply LMTD_R_defined; lra.
Defined.

(** Doubles: air that enters and leaves at 25.0, with a stand-in for [LMTD]
    that returns 10.0 and a C library that is never reached. *)
Lemma Ft_aircooler_binary64_equal_temperatures_witness :
  Ft_aircooler (H := Binary64 refusing_libm)
    (fun _ _ _ _ => Ok (b64_of_int 10))
    (b64_of_int 125) (b64_of_int 45) (b64_of_int 25) (b64_of_int 25) 1 4
    (module_globals (H := Binary64 refusing_libm) tt) =
  (Raise ZeroDivisionError, module_globals (H := Binary64 refusing_libm) tt).
Proof.
  refine (proj1 (Ft_aircooler_binary64_equal_temperatures refusing_libm unit
                   (fun _ _ _ _ => Ok (b64_of_int 10)) (b64_of_int 25) 1 4
                   (module_globals (H := Binary64 refusing_libm) tt) _)
            (b64_of_int 125) (b64_of_int 45) (b64_of_int 10) _).
  - vm_compute. reflexivity.
  - reflexivity.
Defined.

(** Doubles: a condenser at 100.0, air from 20.0 to 60.0, three rows in
    three passes, with a stand-in for [LMTD] that returns 10.0 and a C
    library that returns its argument. *)
Lemma Ft_aircooler_binary64_isothermal_witness :
  Ft_aircooler (H := Binary64 echo_libm)
    (fun _ _ _ _ => Ok (b64_of_int 10))
    (b64_of_int 100) (b64_of_int 100) (b64_of_int 20) (b64_of_int 60) 3 3
    (module_globals (H := Binary64 echo_libm) tt) =
  (Ok PrimFloat.one, module_globals (H := Binary64 echo_libm) tt).
Proof.
  apply (Ft_aircooler_binary64_isothermal_hot_side echo_libm unit
           (fun _ _ _ _ => Ok (b64_of_int 10)) tt
           (b64_of_int 100) (b64_of_int 20) (b64_of_int 60) (b64_of_int 10)
           3 3 Rows3_Pass3
           (fun _ =>
              PrimFloat.sub (b64_lit 1 0)
                (PrimFloat.div (b64_of_int 10)
                   (PrimFloat.sub (b64_of_int 100) (b64_of_int 20))))).
  - intros z _. reflexivity.
  - intros z _. reflexivity.
  - exact exact_3_3.
  - vm_compute. reflexivity.
  - reflexivity.
  - vm_compute. reflexivity.
  - vm_compute. reflexivity.
  - vm_compute. reflexivity.
  - intros k _. reflexivity.
  - intros k i Hk Hi.
    destruct k as [| [| [| [| k]]]]; try lia;
      destruct i as [| [| [| [| i]]]]; try lia; vm_compute; reflexivity.
Defined.

End FurtherInputs.
